(** * Bloombox JS client: context model, global context cache, event
      serializer and request senders.

    A shallow embedding of the JavaScript sources
      - telemetry context   (Collection, Context, resolveFingerprint, ...)
      - shop/info/shopinfo.js, shop/info/zipcheck.js
      - identity/id.js      (Enrollment.prototype.send)
      - the telemetry event serializer (serializeGeneric)
    together with the properties of the specification that concern them.

    JavaScript values are an inductive type; objects are finite maps from
    property names to values.  Code that can throw returns a [result];
    code with side effects (logging, issuing an RPC, calling the user's
    callback, browser storage) threads them explicitly. *)

From Stdlib Require Import ZArith String Ascii.
From stdpp Require Import base option strings pretty gmap list.

Set Warnings "-register-all".
Local Open Scope string_scope.

(** ** JavaScript values *)

Module Js.

(** Numbers are kept as integers plus [NaN]: the code under study only
    tests numbers for truthiness, which depends on being zero or NaN. *)
Inductive value :=
| Undefined
| Null
| Bool (b : bool)
| Num (n : Z)
| NaN
| Str (s : string)
| Obj (props : gmap string value).

(** Object literal [{k1: v1, ...}]. *)
Definition obj (l : list (string * value)) : value := Obj (list_to_map l).

(** [ToBoolean]. *)
Definition truthy (v : value) : bool :=
  match v with
  | Undefined | Null | NaN => false
  | Bool b => b
  | Num n => negb (n =? 0)%Z
  | Str s => negb (String.eqb s "")
  | Obj _ => true
  end.

(** [typeof v]. *)
Definition typeof (v : value) : string :=
  match v with
  | Undefined => "undefined"
  | Null | Obj _ => "object"
  | Bool _ => "boolean"
  | Num _ | NaN => "number"
  | Str _ => "string"
  end.

(** [v == null]: true of [null] and [undefined] only. *)
Definition is_nullish (v : value) : bool :=
  match v with
  | Undefined | Null => true
  | _ => false
  end.

(** [v[k]] for a value that is neither [null] nor [undefined] (every
    read in the sources is behind such a test) and a key that no
    primitive wrapper defines: the own property, else [undefined]. *)
Definition get (v : value) (k : string) : value :=
  match v with
  | Obj m => default Undefined (m !! k)
  | _ => Undefined
  end.

(** [v === s] for a string literal [s]. *)
Definition is_str (v : value) (s : string) : bool :=
  match v with
  | Str s' => String.eqb s' s
  | _ => false
  end.

(** [a || b]. *)
Definition or (a b : value) : value := if truthy a then a else b.

(** Outcome of a call that may throw an [E]. *)
Inductive result (E A : Type) :=
| Ok (a : A)
| Throw (e : E).
Arguments Ok {E A} a.
Arguments Throw {E A} e.

Definition bind {E A B} (r : result E A) (k : A -> result E B) : result E B :=
  match r with
  | Ok a => k a
  | Throw e => Throw e
  end.

(** Exceptions raised by the modelled code.  [TypeError] is the
    engine's error for a property read or method call on [null] or
    [undefined]. *)
Inductive thrown :=
| TypeError
| ContextException (message : string)
| ShopInfoException (message : string)
| ZipcheckException (message : string).

(** [v === null]. *)
Definition is_null (v : value) : bool :=
  match v with
  | Null => true
  | _ => false
  end.

(** [v === undefined]. *)
Definition is_undefined (v : value) : bool :=
  match v with
  | Undefined => true
  | _ => false
  end.

(** [v === true]. *)
Definition is_true (v : value) : bool :=
  match v with
  | Bool true => true
  | _ => false
  end.

(** [v.length] of a string value (used behind a [typeof] test). *)
Definition strlen (v : value) : nat :=
  match v with
  | Str s => String.length s
  | _ => 0
  end.

(** [ToString], as used by [+] with a string operand.  Objects print as
    plain objects do. *)
Definition toString (v : value) : string :=
  match v with
  | Undefined => "undefined"
  | Null => "null"
  | Bool true => "true"
  | Bool false => "false"
  | Num n => pretty n
  | NaN => "NaN"
  | Str s => s
  | Obj _ => "[object Object]"
  end.

(** [v[k]] with the engine's check of the base value. *)
Definition get_prop (v : value) (k : string) : result thrown value :=
  if is_nullish v then Throw TypeError else Ok (get v k).

(** [o[k] = x] on an object. *)
Definition set (o : value) (k : string) (x : value) : value :=
  match o with
  | Obj m => Obj (<[k := x]> m)
  | _ => o
  end.

(** Optional string argument ([?string=]): [None] is an omitted or
    [null] argument. *)
Definition truthy_str (o : option string) : bool :=
  match o with
  | Some s => negb (String.eqb s "")
  | None => false
  end.

(** [o || null] on an optional string. *)
Definition or_null (o : option string) : option string :=
  if truthy_str o then o else None.

(** The string of an argument known to be truthy. *)
Definition str_of (o : option string) : string := default "" o.

(** The one-character string holding a double quote. *)
Definition dquote : string := String "034"%char EmptyString.

End Js.

Import Js.

Notation "x <- r ;;; k" := (Js.bind r (fun x => k))
  (at level 100, r at next level, right associativity, only parsing).

(** ** Telemetry context *)

Module Telemetry.

(** *** Wire messages used by the context

    The generated [proto.*] classes are plain records; a message-typed
    field that was never set reads as [None] (the getter returns
    [null]/[undefined]). *)

Record PartnerKey := { pk_code : string }.

Record PartnerLocationKey :=
  { plk_code : string;
    plk_partner : option PartnerKey }.

Record PartnerDeviceKey :=
  { pdk_uuid : string;
    pdk_location : option PartnerLocationKey }.

Record UserKey := { uk_uid : string }.

Record OrderKey := { ok_id : string }.

Record VersionSpec := { vs_name : string }.

Record DeviceOS :=
  { os_type : Z;
    os_version : option VersionSpec }.

Record DeviceApplication :=
  { app_type : Z;
    app_origin : string }.

Record DeviceLibrary :=
  { lib_variant : string;
    lib_version : option VersionSpec }.

Record BrowserDeviceContext :=
  { bdc_browserType : Z;
    bdc_deviceType : Z;
    bdc_version : option VersionSpec;
    bdc_os : option DeviceOS;
    bdc_app : option DeviceApplication;
    bdc_library : option DeviceLibrary }.

Record ProtoCollection := { pcol_name : string }.

(** [proto.analytics.Scope]. *)
Record Scope :=
  { scope_partner : option string;
    scope_commercial : option string }.

(** [proto.analytics.Context]: every field is unset after [new]. *)
Record ProtoContext :=
  { pc_collection : option ProtoCollection;
    pc_fingerprint : option string;
    pc_group : option string;
    pc_user : option UserKey;
    pc_scope : option Scope;
    pc_browser : option BrowserDeviceContext }.

(** *** Event collections *)

Record Collection := { name : string }.

Section CollectionCtor.
(** [bloombox.util.b64.encode], defined outside these sources. *)
Variable b64_encode : string -> string.

Definition new_Collection (name : string) (opt_skipb64encode : bool)
  : Collection :=
  {| name := if opt_skipb64encode then name else b64_encode name |}.

Definition Collection_named (name : string) : Collection :=
  new_Collection name false.
End CollectionCtor.

Definition Collection_export (c : Collection) : ProtoCollection :=
  {| pcol_name := name c |}.

Definition Collection_serialize (c : Collection) : value :=
  obj [("name", Str (name c))].

(** *** Master context *)

(** The object built by the [Context] constructor.  [partner] is the
    property [this.partner]: [serialize] reads it, the constructor never
    assigns it. *)
Record Context :=
  { collection : option Collection;
    fingerprint : option string;
    session : option string;
    location : option PartnerLocationKey;
    device : option PartnerDeviceKey;
    user : option UserKey;
    order : option OrderKey;
    browser : option BrowserDeviceContext;
    partner : option string }.

(** Arguments of the constructor, in the order of the source. *)
Record ContextArgs :=
  { opt_collection : option Collection;
    opt_partner : option string;
    opt_location : option string;
    opt_fingerprint : option string;
    opt_session : option string;
    opt_user : option string;
    opt_device : option string;
    opt_order : option string;
    opt_browser : option BrowserDeviceContext }.

Definition new_Context (a : ContextArgs) : result thrown Context :=
  let this_collection := opt_collection a in
  let this_fingerprint := or_null (opt_fingerprint a) in
  let this_session := or_null (opt_session a) in
  (* make us a partner key *)
  let partnerKey :=
    if truthy_str (opt_partner a)
    then Some {| pk_code := str_of (opt_partner a) |}
    else None in
  locationKey <-
    (if truthy_str (opt_partner a) && truthy_str (opt_location a)
     then Ok (Some {| plk_code := str_of (opt_location a);
                      plk_partner := partnerKey |})
     else if truthy_str (opt_partner a) && truthy_str (opt_location a)
     then Throw (ContextException
                   "Cannot provide location context without partner context.")
     else Ok None) ;;;
  (* the device key, if any; the argument is a string by its type *)
  let deviceKey :=
    if truthy_str (opt_device a)
    then Some {| pdk_uuid := str_of (opt_device a);
                 pdk_location := locationKey |}
    else None in
  let user :=
    if truthy_str (opt_user a)
    then Some {| uk_uid := str_of (opt_user a) |}
    else None in
  let order :=
    if truthy_str (opt_order a)
    then Some {| ok_id := str_of (opt_order a) |}
    else None in
  Ok {| collection := this_collection;
        fingerprint := this_fingerprint;
        session := this_session;
        location := locationKey;
        device := deviceKey;
        user := user;
        order := order;
        browser := opt_browser a;
        partner := None |}.

Definition resolveVersion (protob : option VersionSpec) : value :=
  match protob with
  | Some v => if negb (String.eqb (vs_name v) "")
              then obj [("name", Str (vs_name v))]
              else obj []
  | None => obj []
  end.

(** [getOs()], [getApp()] and [getLibrary()] are dereferenced without a
    test: an unset sub-message is a [TypeError]. *)
Definition deref {A} (o : option A) : result thrown A :=
  match o with
  | Some a => Ok a
  | None => Throw TypeError
  end.

Definition serializeBrowserContext (protob : BrowserDeviceContext)
  : result thrown value :=
  os <- deref (bdc_os protob) ;;;
  app <- deref (bdc_app protob) ;;;
  library <- deref (bdc_library protob) ;;;
  Ok (obj [("browserType", Num (bdc_browserType protob));
           ("deviceType", Num (bdc_deviceType protob));
           ("version", resolveVersion (bdc_version protob));
           ("os", obj [("type", Num (os_type os));
                       ("version", resolveVersion (os_version os))]);
           ("app", obj [("type", Num (app_type app));
                        ("origin", Str (app_origin app))]);
           ("library", obj [("variant", Str (lib_variant library));
                            ("version",
                             resolveVersion (lib_version library))])]).

(** [Context.prototype.serialize]. *)
Definition serialize (this : Context) : result thrown (gmap string value) :=
  let baseContext : gmap string value := ∅ in
  let baseContext :=
    match collection this with
    | Some c => <["collection" := Collection_serialize c]> baseContext
    | None => baseContext
    end in
  let baseContext :=
    if truthy_str (fingerprint this)
    then <["fingerprint" := Str (str_of (fingerprint this))]> baseContext
    else baseContext in
  let baseContext :=
    if truthy_str (session this)
    then <["group" := Str (str_of (session this))]> baseContext
    else baseContext in
  let baseContext :=
    match user this with
    | Some u => <["user" := obj [("uid", Str (uk_uid u))]]> baseContext
    | None => baseContext
    end in
  let baseContext :=
    match order this with
    | Some o => <["order" := obj [("id", Str (ok_id o))]]> baseContext
    | None => baseContext
    end in
  (* consider partner context, etc *)
  partnerScope <-
    match location this with
    | Some loc =>
        match device this with
        | Some dev =>
            p <- deref (plk_partner loc) ;;;
            Ok (Some (String.concat "/"
                        [pk_code p; plk_code loc; pdk_uuid dev]))
        | None =>
            p <- deref (plk_partner loc) ;;;
            (* this.device.getUuid() with this.device === null *)
            dev <- deref (device this) ;;;
            Ok (Some (String.concat "/" [pk_code p; pdk_uuid dev]))
        end
    | None =>
        if truthy_str (partner this)
        then
          (* this.location.getPartner() with this.location === null *)
          loc <- deref (location this) ;;;
          p <- deref (plk_partner loc) ;;;
          Ok (Some (pk_code p))
        else Ok None
    end ;;;
  let baseContext :=
    if truthy_str partnerScope
    then <["scope" := obj [("partner", Str (str_of partnerScope))]]>
           baseContext
    else baseContext in
  (* consider commercial context *)
  let baseContext :=
    match order this with
    | Some o =>
        if negb (truthy (default Undefined (baseContext !! "scope")))
        then <["scope" := obj [("order", Str (ok_id o))]]> baseContext
        else baseContext
    | None => baseContext
    end in
  (* consider browser context *)
  match browser this with
  | Some b =>
      sb <- serializeBrowserContext b ;;;
      Ok (<["browser" := sb]> baseContext)
  | None => Ok baseContext
  end.

(** The value of the local [scope] message of [export] when it
    returns. *)
Definition export_scope (this : Context) : result thrown Scope :=
  let scope := {| scope_partner := None; scope_commercial := None |} in
  match location this with
  | Some loc =>
      match device this with
      | Some dev =>
          (* full device->location->partner context *)
          p <- deref (plk_partner loc) ;;;
          Ok {| scope_partner :=
                  Some ("partner/" ++ pk_code p ++
                        "location/" ++ plk_code loc ++
                        "device/" ++ pdk_uuid dev);
                scope_commercial := scope_commercial scope |}
      | None =>
          (* partner -> location context *)
          p <- deref (plk_partner loc) ;;;
          Ok {| scope_partner :=
                  Some ("partner/" ++ pk_code p ++
                        "location/" ++ plk_code loc);
                scope_commercial := scope_commercial scope |}
      end
  | None => Ok scope
  end.

(** [Context.prototype.export].  The source fills the local [scope] and
    returns [context] without ever calling a setter of [context] with
    it. *)
Definition export (this : Context) : result thrown ProtoContext :=
  let context :=
    {| pc_collection := None; pc_fingerprint := None; pc_group := None;
       pc_user := None; pc_scope := None; pc_browser := None |} in
  let context :=
    if truthy_str (fingerprint this)
    then {| pc_collection := pc_collection context;
            pc_fingerprint := fingerprint this;
            pc_group := pc_group context;
            pc_user := pc_user context;
            pc_scope := pc_scope context;
            pc_browser := pc_browser context |}
    else context in
  let context :=
    if truthy_str (session this)
    then {| pc_collection := pc_collection context;
            pc_fingerprint := pc_fingerprint context;
            pc_group := session this;
            pc_user := pc_user context;
            pc_scope := pc_scope context;
            pc_browser := pc_browser context |}
    else context in
  let context :=
    match collection this with
    | Some c => {| pc_collection := Some (Collection_export c);
                   pc_fingerprint := pc_fingerprint context;
                   pc_group := pc_group context;
                   pc_user := pc_user context;
                   pc_scope := pc_scope context;
                   pc_browser := pc_browser context |}
    | None => context
    end in
  let context :=
    match user this with
    | Some u => {| pc_collection := pc_collection context;
                   pc_fingerprint := pc_fingerprint context;
                   pc_group := pc_group context;
                   pc_user := Some u;
                   pc_scope := pc_scope context;
                   pc_browser := pc_browser context |}
    | None => context
    end in
  scope <- export_scope this ;;;
  let context :=
    match browser this with
    | Some b => {| pc_collection := pc_collection context;
                   pc_fingerprint := pc_fingerprint context;
                   pc_group := pc_group context;
                   pc_user := pc_user context;
                   pc_scope := pc_scope context;
                   pc_browser := Some b |}
    | None => context
    end in
  Ok context.

End Telemetry.

(** ** Global context cache *)

Module GlobalContext.

Definition DEVICE_FINGERPRINT_KEY : string := "bb:v1:t.df".
Definition SESSION_ID_KEY : string := "bb:v1:t.sid".

(** The process-wide variables together with the two browser storages,
    the log, and the number of identifiers drawn so far from the
    generator. *)
Record World :=
  { DEVICE_FINGERPRINT : option string;
    SESSION_ID : option string;
    localStorage : gmap string string;
    sessionStorage : gmap string string;
    drawn : nat;
    logged : list string }.

(** [window.localStorage.clear()] and [removeItem(key)]. *)
Definition localStorage_clear (w : World) : World :=
  {| DEVICE_FINGERPRINT := DEVICE_FINGERPRINT w;
     SESSION_ID := SESSION_ID w;
     localStorage := ∅;
     sessionStorage := sessionStorage w;
     drawn := drawn w;
     logged := logged w |}.

Definition localStorage_removeItem (k : string) (w : World) : World :=
  {| DEVICE_FINGERPRINT := DEVICE_FINGERPRINT w;
     SESSION_ID := SESSION_ID w;
     localStorage := delete k (localStorage w);
     sessionStorage := sessionStorage w;
     drawn := drawn w;
     logged := logged w |}.

(** Any change of the local storage made by other code between two
    calls. *)
Definition localStorage_update
    (f : gmap string string -> gmap string string) (w : World) : World :=
  {| DEVICE_FINGERPRINT := DEVICE_FINGERPRINT w;
     SESSION_ID := SESSION_ID w;
     localStorage := f (localStorage w);
     sessionStorage := sessionStorage w;
     drawn := drawn w;
     logged := logged w |}.

(** A fresh page load: the variables are [null] again, the storages
    persist. *)
Definition restart (w : World) : World :=
  {| DEVICE_FINGERPRINT := None;
     SESSION_ID := None;
     localStorage := localStorage w;
     sessionStorage := sessionStorage w;
     drawn := drawn w;
     logged := [] |}.

Section Resolve.
(** [bloombox.util.generateUUID], defined outside these sources: the
    [n]-th identifier it hands out. *)
Variable generateUUID : nat -> string.

(** Returns [bloombox.telemetry.DEVICE_FINGERPRINT] after the
    conditional has filled it. *)
Definition resolveFingerprint (w : World) : string * World :=
  match DEVICE_FINGERPRINT w with
  | None =>
      (* try to fetch it from local storage *)
      let existingFingerprint := localStorage w !! DEVICE_FINGERPRINT_KEY in
      if truthy_str existingFingerprint
      then
        (str_of existingFingerprint,
         {| DEVICE_FINGERPRINT := Some (str_of existingFingerprint);
            SESSION_ID := SESSION_ID w;
            localStorage := localStorage w;
            sessionStorage := sessionStorage w;
            drawn := drawn w;
            logged := logged w |})
      else
        let newDeviceFingerprint := generateUUID (drawn w) in
        (newDeviceFingerprint,
         {| DEVICE_FINGERPRINT := Some newDeviceFingerprint;
            SESSION_ID := SESSION_ID w;
            localStorage :=
              <[DEVICE_FINGERPRINT_KEY := newDeviceFingerprint]>
                (localStorage w);
            sessionStorage := sessionStorage w;
            drawn := S (drawn w);
            logged :=
              logged w ++
              ["Established device fingerprint: " ++ dquote
               ++ newDeviceFingerprint ++ "'."]%string |})
  | Some fp => (fp, w)
  end.

Definition resolveSessionID (w : World) : string * World :=
  match SESSION_ID w with
  | None =>
      let existingID := sessionStorage w !! SESSION_ID_KEY in
      if truthy_str existingID
      then
        (str_of existingID,
         {| DEVICE_FINGERPRINT := DEVICE_FINGERPRINT w;
            SESSION_ID := Some (str_of existingID);
            localStorage := localStorage w;
            sessionStorage := sessionStorage w;
            drawn := drawn w;
            logged := logged w |})
      else
        let newSessionID := generateUUID (drawn w) in
        (newSessionID,
         {| DEVICE_FINGERPRINT := DEVICE_FINGERPRINT w;
            SESSION_ID := Some newSessionID;
            localStorage := localStorage w;
            sessionStorage :=
              <[SESSION_ID_KEY := newSessionID]> (sessionStorage w);
            drawn := S (drawn w);
            logged :=
              logged w ++
              ["Established user session at ID: " ++ dquote
               ++ newSessionID ++ "'."]%string |})
  | Some sid => (sid, w)
  end.
End Resolve.

End GlobalContext.

(** ** Event serializer *)

Module Serializer.

(** [bloombox.telemetry.internals.EventTypeProperty]. *)
Module EventTypeProperty.
Definition EVENT : string := "genericEvent".
Definition EXCEPTION : string := "genericError".
Definition SECTION_IMPRESSION : string := "sectionImpression".
Definition SECTION_VIEW : string := "sectionView".
Definition SECTION_ACTION : string := "sectionAction".
Definition PRODUCT_IMPRESSION : string := "productImpression".
Definition PRODUCT_VIEW : string := "productView".
Definition PRODUCT_ACTION : string := "productAction".
Definition ORDER_ACTION : string := "orderAction".
End EventTypeProperty.

Section Generic.
(** The typed event payloads ([proto.analytics.generic.Event],
    [proto.analytics.generic.Exception], ...), opaque here. *)
Variable Payload : Type.

(** [proto.services.telemetry.v1beta2.TelemetryEvent], with the typed
    fields this serializer can set. *)
Record TelemetryEvent :=
  { te_generic : option Payload;
    te_error : option Payload;
    te_context : option Telemetry.ProtoContext }.

Record SerializationException :=
  { se_message : string;
    se_type : value;
    se_value : Payload }.

(** [opt_context] is [None] when the argument is [undefined];
    [opt_err] is the raw argument.  The first component is what was
    sent to [bloombox.logging.error]; a [null] return is [None]. *)
Definition serializeGeneric (type : value) (value : Payload)
    (opt_context : option Telemetry.ProtoContext) (opt_err : Js.value)
  : list string * result SerializationException (option TelemetryEvent) :=
  let doThrow := if is_undefined opt_err then Bool true else opt_err in
  let event :=
    {| te_generic := None; te_error := None; te_context := None |} in
  let set_context (event : TelemetryEvent) :=
    match opt_context with
    | Some c => {| te_generic := te_generic event;
                   te_error := te_error event;
                   te_context := Some c |}
    | None => event
    end in
  if is_str type EventTypeProperty.EVENT then
    let event := {| te_generic := Some value;
                    te_error := te_error event;
                    te_context := te_context event |} in
    ([], Ok (Some (set_context event)))
  else if is_str type EventTypeProperty.EXCEPTION then
    let event := {| te_generic := te_generic event;
                    te_error := Some value;
                    te_context := te_context event |} in
    ([], Ok (Some (set_context event)))
  else
    let log := ["Unrecognized event type, cannot serialize: "] in
    if truthy doThrow
    then (log, Throw {| se_message :=
                          "Unable to serialize generic TelemetryEvent.";
                        se_type := type;
                        se_value := value |})
    else (log, Ok None).
End Generic.

Arguments te_generic {Payload} _.
Arguments te_error {Payload} _.
Arguments te_context {Payload} _.
Arguments se_message {Payload} _.
Arguments se_type {Payload} _.
Arguments se_value {Payload} _.
Arguments serializeGeneric {Payload} _ _ _ _.

End Serializer.

(** ** Request senders *)

Module Shop.

(** [bloombox.shop.Routine], as far as the senders name it. *)
Inductive Routine := SHOP_INFO | CHECK_ZIP | ENROLL_USER.

(** The arguments a [bloombox.shop.rpc.ShopRPC] is built with. *)
Record ShopRPC :=
  { rpc_routine : Routine;
    rpc_method : string;
    rpc_endpoint : string;
    rpc_payload : option value }.

(** [bloombox.config]: the two properties the senders read. *)
Record Config :=
  { cfg_partner : value;
    cfg_location : value }.

Inductive level := INFO | LOG | WARN | ERROR.

(** What a sender does to the outside world, in order: a line handed to
    [bloombox.logging] (its message text), an RPC handed to the
    transport with the two continuations, a call of the user's
    callback. *)
Inductive effect (Cb : Type) :=
| Logged (l : level) (message : string)
| Sent (rpc : ShopRPC)
| Called (call : Cb).
Arguments Logged {Cb} l message.
Arguments Sent {Cb} rpc.
Arguments Called {Cb} call.

Definition calls {Cb} (t : list (effect Cb)) : list Cb :=
  omap (fun e => match e with Called c => Some c | _ => None end) t.

Definition requests {Cb} (t : list (effect Cb)) : list ShopRPC :=
  omap (fun e => match e with Sent r => Some r | _ => None end) t.

(** What the transport hands back: a call of the first continuation
    with a response, or of the second with a status. *)
Inductive delivery :=
| Succeeded (response : value)
| Failed (status : value).

(** *** Shop info *)

Module ShopStatus.
Definition OPEN : string := "OPEN".
Definition CLOSED : string := "CLOSED".
Definition PICKUP_ONLY : string := "PICKUP_ONLY".
Definition DELIVERY_ONLY : string := "DELIVERY_ONLY".
End ShopStatus.

(** Arguments of one call of a [ShopInfoCallback]. *)
Record ShopInfoCall :=
  { si_pickup : option bool;
    si_delivery : option bool;
    si_status : value }.

(** [bloombox.shop.info] up to and including [rpc.send]. *)
Definition info (config : Config)
  : list (effect ShopInfoCall) * result thrown unit :=
  let partnerCode := cfg_partner config in
  let locationCode := cfg_location config in
  if negb (truthy partnerCode)
     || negb (String.eqb (typeof partnerCode) "string"
              && Nat.ltb 1 (strlen partnerCode))
     || negb (String.eqb (typeof locationCode) "string"
              && Nat.ltb 1 (strlen locationCode))
  then
    ([], Throw (ShopInfoException
                  ("Partner and location must be set via `bloombox.shop.setup` before"
                   ++ " retrieving shop info.")))
  else
    ([Logged INFO ("Retrieving shop info for '" ++ toString partnerCode
                   ++ ":" ++ toString locationCode ++ "'...");
      Sent {| rpc_routine := SHOP_INFO;
              rpc_method := "GET";
              rpc_endpoint :=
                String.concat "/"
                  ["partners"; toString partnerCode;
                   "locations"; toString locationCode;
                   "shop"; "info"];
              rpc_payload := None |}],
     Ok tt).

(** The first continuation given to [rpc.send]; [done] is the closure
    variable, returned with its new value. *)
Definition info_success (done : bool) (response : value)
  : bool * list (effect ShopInfoCall) :=
  if done then (done, [])
  else if negb (is_nullish response) then
    (true,
     Logged LOG "Received response for shop info RPC." ::
     (if String.eqb (typeof response) "object" then
        let status :=
          Js.or (get response "shopStatus") (Str ShopStatus.OPEN) in
        let '(pickup, delivery) :=
          if is_str status ShopStatus.CLOSED then (false, false)
          else if is_str status ShopStatus.DELIVERY_ONLY then (false, true)
          else if is_str status ShopStatus.PICKUP_ONLY then (true, false)
          else (true, true) in
        [Called {| si_pickup := Some pickup;
                   si_delivery := Some delivery;
                   si_status := Null |}]
      else
        [Logged ERROR
           "Received unrecognized response payload for shop info.";
         Called {| si_pickup := None;
                   si_delivery := None;
                   si_status := Null |}]))
  else (done, []).

(** The second continuation. *)
Definition info_failure (done : bool) (status : value)
  : bool * list (effect ShopInfoCall) :=
  (done,
   [Logged ERROR ("An error occurred while querying shop info. Status code: '"
                  ++ toString status ++ "'.");
    Called {| si_pickup := None;
              si_delivery := None;
              si_status := Js.or status Null |}]).

Definition info_deliver (done : bool) (d : delivery)
  : bool * list (effect ShopInfoCall) :=
  match d with
  | Succeeded response => info_success done response
  | Failed status => info_failure done status
  end.

(** *** Zipcode check *)

(** White space skipped by [parseInt] (the one-byte code points). *)
Definition is_space (c : ascii) : bool :=
  let n := nat_of_ascii c in
  Nat.leb 9 n && Nat.leb n 13 || Nat.eqb n 32 || Nat.eqb n 160.

Definition is_digit (c : ascii) : bool :=
  let n := nat_of_ascii c in
  Nat.leb 48 n && Nat.leb n 57.

Fixpoint skip_spaces (s : string) : string :=
  match s with
  | String c rest => if is_space c then skip_spaces rest else s
  | EmptyString => s
  end.

(** [isNaN(parseInt(s, 10))]: after leading white space and one optional
    sign there is no decimal digit. *)
Definition parseInt_isNaN (s : string) : bool :=
  let s := skip_spaces s in
  let s :=
    match s with
    | String c rest =>
        if Ascii.eqb c "+"%char || Ascii.eqb c "-"%char then rest else s
    | EmptyString => s
    end in
  match s with
  | String c _ => negb (is_digit c)
  | EmptyString => true
  end.

(** Argument of one call of a [ZipCheckCallback]. *)
Record ZipCheckCall := { zc_supported : option bool }.

(** [bloombox.shop.zipcheck] up to and including [rpc.send]. *)
Definition zipcheck (config : Config) (zipcode : value)
  : list (effect ZipCheckCall) * result thrown unit :=
  if negb (truthy zipcode)
     || negb (String.eqb (typeof zipcode) "string")
     || negb (Nat.eqb (strlen zipcode) 5)
     || parseInt_isNaN (toString zipcode)
  then
    ([], Throw (ZipcheckException
                  ("Zipcode was found to be invalid: " ++ toString zipcode)))
  else
    let trace : list (effect ZipCheckCall) :=
      [Logged INFO ("Verifying zipcode '" ++ toString zipcode
                    ++ "' for delivery eligibility...")] in
    let partnerCode := cfg_partner config in
    let locationCode := cfg_location config in
    if negb (truthy partnerCode)
       || negb (String.eqb (typeof partnerCode) "string"
                && Nat.ltb 1 (strlen partnerCode))
       || negb (String.eqb (typeof locationCode) "string"
                && Nat.ltb 1 (strlen locationCode))
    then
      (trace,
       Throw (ZipcheckException
                ("Partner and location must be set via `bloombox.shop.setup` before"
                 ++ " conducting a zipcode eligibility check.")))
    else
      (app trace
       [Sent {| rpc_routine := CHECK_ZIP;
                rpc_method := "GET";
                rpc_endpoint :=
                  String.concat "/"
                    ["partners"; toString partnerCode;
                     "locations"; toString locationCode;
                     "zipcheck"; toString zipcode];
                rpc_payload := None |}],
       Ok tt).

Definition zipcheck_success (done : bool) (response : value)
  : bool * list (effect ZipCheckCall) :=
  if done then (done, [])
  else if negb (is_nullish response) then
    (true,
     Logged LOG "Received response for zipcheck RPC." ::
     (if String.eqb (typeof response) "object" then
        (* interrogate response for zipcode support status *)
        let supported := is_true (get response "supported") in
        [Called {| zc_supported := Some supported |}]
      else
        [Logged ERROR
           "Received unrecognized response payload for zipcheck.";
         Called {| zc_supported := None |}]))
  else (done, []).

Definition zipcheck_failure (done : bool) (status : value)
  : bool * list (effect ZipCheckCall) :=
  (done,
   [Logged ERROR ("An error occurred while verifying a zipcode. Status code: '"
                  ++ toString status ++ "'.");
    Called {| zc_supported := None |}]).

Definition zipcheck_deliver (done : bool) (d : delivery)
  : bool * list (effect ZipCheckCall) :=
  match d with
  | Succeeded response => zipcheck_success done response
  | Failed status => zipcheck_failure done status
  end.

End Shop.

(** ** Enrollment *)

Module Enroll.
Import Shop.

(** The identity objects an enrollment carries.  The classes of the
    person, contact and recommendation live outside these sources; their
    leaves are copied into the request as they are. *)
Record Name :=
  { firstName : value;
    lastName : value }.

Record Date := { iso8601 : value }.

Record StreetAddress :=
  { sa_firstLine : value;
    sa_secondLine : value;
    sa_city : value;
    sa_state : value;
    sa_zip : value;
    sa_country : value }.

Record ContactInfo :=
  { emailAddress : value;
    phoneNumber : value;
    streetAddress : StreetAddress }.

Record Person :=
  { p_name : Name;
    contactInfo : ContactInfo;
    dateOfBirth : Date }.

Record DoctorRec :=
  { dr_id : value;
    dr_expirationDate : Date;
    dr_state : value;
    dr_country : value;
    doctorName : Name;
    doctorPhone : value;
    doctorWebsite : value }.

(** [bloombox.identity.ID] after construction. *)
Record ID :=
  { id_type : Z;
    id_id : string;
    id_expirationDate : Date;
    id_birthDate : Date;
    id_jurisdiction : string;
    id_country : string }.

(** [bloombox.shop.enroll.Enrollment] after construction. *)
Record Enrollment :=
  { source : value;
    channel : value;
    person : Person;
    doctorRec : DoctorRec;
    license : ID;
    password : value;
    dryRun : bool }.

Definition enableDryRun (this : Enrollment) : Enrollment :=
  {| source := source this;
     channel := channel this;
     person := person this;
     doctorRec := doctorRec this;
     license := license this;
     password := password this;
     dryRun := true |}.

(** Modelled from the spec: [bloombox.shop.Customer] is defined outside
    these sources; the specification calls its instance a customer
    carrying the foreign id, built from the enrolling person. *)
Record Customer :=
  { cust_person : Person;
    cust_foreignId : value }.

(** Modelled from the spec: the generated message
    [proto.services.shop.v1.EnrollMember.Response] is outside these
    sources; per the specification a response holds [error] or [id] and
    [foreignId].  A setter stores its argument, a getter returns what
    was stored. *)
Record EnrollResponse :=
  { er_error : value;
    er_id : value;
    er_foreignId : value }.

Definition new_EnrollResponse : EnrollResponse :=
  {| er_error := Undefined; er_id := Undefined; er_foreignId := Undefined |}.

Definition setError (e : value) (r : EnrollResponse) : EnrollResponse :=
  {| er_error := e; er_id := er_id r; er_foreignId := er_foreignId r |}.

Definition getError (r : EnrollResponse) : value := er_error r.

(** Arguments of one call of an [EnrollCallback]. *)
Record EnrollCall :=
  { ec_ok : bool;
    ec_error : value;
    ec_customer : option Customer }.

(** [o[k] = x] with the engine's check of the base value. *)
Definition set_prop (o : value) (k : string) (x : value)
  : result thrown value :=
  if is_nullish o then Throw TypeError else Ok (Js.set o k x).

(** The request body assembled by [send]. *)
Definition rawObject_of (this : Enrollment) (partner location : value)
  : result thrown value :=
  let rawObject :=
    obj [("person",
          obj [("name",
                obj [("firstName", firstName (p_name (person this)));
                     ("lastName", lastName (p_name (person this)))]);
               ("contact",
                obj [("email",
                      obj [("address",
                            emailAddress (contactInfo (person this)))]);
                     ("phone",
                      obj [("e164",
                            phoneNumber (contactInfo (person this)))]);
                     ("location",
                      obj [("address",
                            let a := streetAddress (contactInfo (person this)) in
                            obj [("firstLine", sa_firstLine a);
                                 ("secondLine", sa_secondLine a);
                                 ("city", sa_city a);
                                 ("state", sa_state a);
                                 ("zipcode", sa_zip a);
                                 ("country", sa_country a)])])]);
               ("dateOfBirth",
                obj [("iso8601", iso8601 (dateOfBirth (person this)))])]);
         ("source", source this);
         ("channel", channel this);
         ("doctorRec",
          obj [("id", dr_id (doctorRec this));
               ("expirationDate",
                obj [("iso8601",
                      iso8601 (dr_expirationDate (doctorRec this)))]);
               ("state", dr_state (doctorRec this));
               ("country", dr_country (doctorRec this));
               ("doctor",
                obj [("name",
                      obj [("firstName",
                            firstName (doctorName (doctorRec this)));
                           ("lastName",
                            lastName (doctorName (doctorRec this)))]);
                     ("contact",
                      obj [("phone",
                            obj [("e164",
                                  doctorPhone (doctorRec this))])])])]);
         ("license",
          obj [("id", Str (id_id (license this)));
               ("expireDate",
                obj [("iso8601",
                      iso8601 (id_expirationDate (license this)))]);
               ("birthDate",
                obj [("iso8601", iso8601 (id_birthDate (license this)))]);
               ("jurisdiction", Str (id_jurisdiction (license this)))]);
         ("partnerCode", partner);
         ("locationCode", location)] in
  (* copy in password, if it's there *)
  let rawObject :=
    if negb (is_null (password this))
    then Js.set rawObject "password" (password this)
    else rawObject in
  (* copy in doctor website, if it's there *)
  rawObject <-
    (if negb (is_null (doctorWebsite (doctorRec this)))
     then
       rec <- get_prop rawObject "doctorRec" ;;;
       rec_person <- get_prop rec "person" ;;;
       rec_contact <- get_prop rec_person "contact" ;;;
       rec_contact <-
         set_prop rec_contact "website"
           (obj [("uri", doctorWebsite (doctorRec this))]) ;;;
       Ok (Js.set rawObject "doctorRec"
             (Js.set rec "person"
                (Js.set rec_person "contact" rec_contact)))
     else Ok rawObject) ;;;
  Ok (if dryRun this
      then Js.set rawObject "dryRun" (Bool true)
      else rawObject).

(** [Enrollment.prototype.send] up to and including [rpc.send]. *)
Definition send (config : Config) (this : Enrollment)
  : list (effect EnrollCall) * result thrown unit :=
  let partner := cfg_partner config in
  let location := cfg_location config in
  if negb (truthy partner) || negb (truthy location)
  then
    ([Logged ERROR "Partner or location code is not defined."], Ok tt)
  else
    match rawObject_of this partner location with
    | Throw e => ([], Throw e)
    | Ok rawObject =>
        ([Logged INFO "Enrolling user...";
          Sent {| rpc_routine := ENROLL_USER;
                  rpc_method := "POST";
                  rpc_endpoint := "members";
                  rpc_payload := Some rawObject |}],
         Ok tt)
    end.

(** The first continuation given to [rpc.send]; [personObj] and [done]
    are the closure variables. *)
Definition send_success (personObj : Person) (done : bool)
    (response : value) : bool * list (effect EnrollCall) :=
  if done then (done, [])
  else if negb (is_nullish response) then
    (true,
     Logged LOG "Response received for enrollment RPC." ::
     (let inflated := new_EnrollResponse in
      if truthy (get response "error") then
        (* an error occurred *)
        let inflated := setError (get response "error") inflated in
        [Called {| ec_ok := false;
                   ec_error := getError inflated;
                   ec_customer := None |}]
      else if truthy (get response "id")
              && truthy (get response "foreignId") then
        (* we have a resulting customer object and ID *)
        let customer :=
          {| cust_person := personObj;
             cust_foreignId := get response "foreignId" |} in
        [Logged LOG "Decoded customer from response.";
         Called {| ec_ok := true;
                   ec_error := Null;
                   ec_customer := Some customer |}]
      else
        [Logged ERROR "Failed to find customer or ID in response.";
         Called {| ec_ok := false;
                   ec_error := Null;
                   ec_customer := None |}]))
  else
    (done,
     [Logged WARN "Failed to inflate RPC.";
      Called {| ec_ok := false; ec_error := Null; ec_customer := None |}]).

(** The second continuation. *)
Definition send_failure (done : bool) (status : value)
  : bool * list (effect EnrollCall) :=
  (done,
   [Logged ERROR
      (if truthy status
       then "Enrollment RPC failed with unexpected status: '"
            ++ toString status ++ "'."
       else "Enrollment RPC response failed to be decoded.");
    Called {| ec_ok := false; ec_error := Null; ec_customer := None |}]).

Definition send_deliver (personObj : Person) (done : bool) (d : delivery)
  : bool * list (effect EnrollCall) :=
  match d with
  | Succeeded response => send_success personObj done response
  | Failed status => send_failure done status
  end.

End Enroll.

(** ** Rendering a wire message as a plain object *)

Module ProtoRender.
Import Telemetry.

(** [Context.serializeProto].  A scalar getter of an unset field returns
    the empty string, a message getter [null]; the device-context case is
    [BROWSER] exactly when the browser field is set.  The commercial part
    of the scope is kept as the string the [Scope] record has. *)
Definition serializeProto (context : ProtoContext)
  : result thrown (gmap string value) :=
  let baseContext : gmap string value := ∅ in
  (* string data *)
  let baseContext :=
    match pc_collection context with
    | Some col =>
        if negb (String.eqb (pcol_name col) "")
        then <["collection" := obj [("name", Str (pcol_name col))]]>
               baseContext
        else baseContext
    | None => baseContext
    end in
  let baseContext :=
    if truthy_str (pc_fingerprint context)
    then <["fingerprint" := Str (str_of (pc_fingerprint context))]>
           baseContext
    else baseContext in
  let baseContext :=
    if truthy_str (pc_group context)
    then <["group" := Str (str_of (pc_group context))]> baseContext
    else baseContext in
  (* key contexts *)
  let baseContext :=
    match pc_user context with
    | Some u =>
        if negb (String.eqb (uk_uid u) "")
        then <["user" := obj [("uid", Str (uk_uid u))]]> baseContext
        else baseContext
    | None => baseContext
    end in
  (* handle partner/commercial scope *)
  let baseContext :=
    match pc_scope context with
    | Some scope =>
        let scopeObj : gmap string value := ∅ in
        let scopeObj :=
          if truthy_str (scope_partner scope)
          then <["partner" := Str (str_of (scope_partner scope))]> scopeObj
          else scopeObj in
        let scopeObj :=
          if truthy_str (scope_commercial scope)
          then <["commercial" := Str (str_of (scope_commercial scope))]>
                 scopeObj
          else scopeObj in
        <["scope" := Obj scopeObj]> baseContext
    | None => baseContext
    end in
  (* setup browser context *)
  match pc_browser context with
  | Some b =>
      sb <- serializeBrowserContext b ;;;
      Ok (<["browser" := sb]> baseContext)
  | None => Ok baseContext
  end.

End ProtoRender.

(** ** Browser detection and the global context *)

Module Browser.
Import Telemetry.

(** What [buildBrowserContext] reads from its environment: the truth
    value of each expression it tests, and the strings it copies. *)
Record Environment :=
  { userAgent_VERSION : string;
    product_CHROME : bool;
    product_SAFARI : bool;
    product_FIREFOX : bool;
    product_OPERA : bool;
    userAgent_EDGE_OR_IE : bool;
    device_isDesktop : bool;
    device_isTablet : bool;
    device_isMobile : bool;
    platform_VERSION : string;
    userAgent_IPAD : bool;
    userAgent_IPHONE : bool;
    userAgent_IPOD : bool;
    userAgent_IOS : bool;
    userAgent_WINDOWS : bool;
    userAgent_MOBILE : bool;
    product_ANDROID : bool;
    userAgent_MAC : bool;
    userAgent_LINUX : bool;
    document_origin : string;
    bloombox_VERSION : string;
    bloombox_VARIANT : string }.

(** The numbers of the generated enumerations
    [proto.analytics.context.BrowserType], [DeviceType] and [OSType],
    which are defined outside these sources. *)
Record Enums :=
  { BROWSER_UNKNOWN : Z;
    CHROME : Z;
    SAFARI : Z;
    FIREFOX : Z;
    OPERA : Z;
    IE_OR_EDGE : Z;
    UNKNOWN_DEVICE_TYPE : Z;
    DESKTOP : Z;
    TABLET : Z;
    PHONE : Z;
    OS_UNKNOWN : Z;
    IOS : Z;
    WINDOWS_PHONE : Z;
    WINDOWS : Z;
    ANDROID : Z;
    MACOS : Z;
    LINUX : Z }.

(** [bloombox.telemetry.buildBrowserContext].  The application type is
    never set and reads as the enumeration's zero. *)
Definition buildBrowserContext (E : Enums) (env : Environment)
  : BrowserDeviceContext :=
  (* detect browser type and version *)
  let browserVersion := userAgent_VERSION env in
  let browserType :=
    if product_CHROME env then CHROME E
    else if product_SAFARI env then SAFARI E
    else if product_FIREFOX env then FIREFOX E
    else if product_OPERA env then OPERA E
    else if userAgent_EDGE_OR_IE env then IE_OR_EDGE E
    else BROWSER_UNKNOWN E in
  (* detect device type *)
  let deviceType :=
    if device_isDesktop env then DESKTOP E
    else if device_isTablet env then TABLET E
    else if device_isMobile env then PHONE E
    else UNKNOWN_DEVICE_TYPE E in
  let browserVersionObj := {| vs_name := browserVersion |} in
  (* detect OS type and version *)
  let osVersion := platform_VERSION env in
  let osType :=
    if userAgent_IPAD env || userAgent_IPHONE env || userAgent_IPOD env
       || userAgent_IOS env
    then IOS E
    else if (userAgent_WINDOWS env || userAgent_EDGE_OR_IE env)
            && userAgent_MOBILE env
    then WINDOWS_PHONE E
    else if userAgent_WINDOWS env || userAgent_EDGE_OR_IE env
    then WINDOWS E
    else if product_ANDROID env then ANDROID E
    else if userAgent_MAC env then MACOS E
    else if userAgent_LINUX env then LINUX E
    else OS_UNKNOWN E in
  let osObj :=
    {| os_type := osType;
       os_version := Some {| vs_name := osVersion |} |} in
  (* detect application type and version *)
  let app := {| app_type := 0; app_origin := document_origin env |} in
  (* detect library type and version *)
  let libObj :=
    {| lib_variant := bloombox_VARIANT env;
       lib_version := Some {| vs_name := bloombox_VERSION env |} |} in
  {| bdc_browserType := browserType;
     bdc_deviceType := deviceType;
     bdc_version := Some browserVersionObj;
     bdc_os := Some osObj;
     bdc_app := Some app;
     bdc_library := Some libObj |}.

(** What [bloombox.config.active()] returns, as far as it is read. *)
Record ActiveConfig :=
  { config_partner : option string;
    config_location : option string }.

(** The process-wide state with the cached context added. *)
Record Globals :=
  { GLOBAL_CONTEXT : option Context;
    world : GlobalContext.World }.

(** [bloombox.telemetry.globalContext]: the state after the call, and
    the value of [GLOBAL_CONTEXT] it returns (or what the constructor
    threw). *)
Definition globalContext (generateUUID : nat -> string) (E : Enums)
    (env : Environment) (config : ActiveConfig) (opt_force_fresh : bool)
    (g : Globals) : Globals * result thrown (option Context) :=
  let forceFresh := opt_force_fresh || false in
  let '(g, gathered) :=
    if match GLOBAL_CONTEXT g with None => true | Some _ => false end
       || forceFresh
    then
      (* grab global config *)
      let partnerCode := or_null (config_partner config) in
      let locationCode := or_null (config_location config) in
      let '(deviceFingerprint, w) :=
        GlobalContext.resolveFingerprint generateUUID (world g) in
      let '(sessionID, w) :=
        GlobalContext.resolveSessionID generateUUID w in
      let browserContext := buildBrowserContext E env in
      (* calculate global context *)
      match new_Context
              {| opt_collection := None;
                 opt_partner := partnerCode;
                 opt_location := locationCode;
                 opt_fingerprint := Some deviceFingerprint;
                 opt_session := Some sessionID;
                 opt_user := None;
                 opt_device := None;
                 opt_order := None;
                 opt_browser := Some browserContext |} with
      | Ok c => ({| GLOBAL_CONTEXT := Some c; world := w |}, Ok tt)
      | Throw e =>
          ({| GLOBAL_CONTEXT := GLOBAL_CONTEXT g; world := w |}, Throw e)
      end
    else (g, Ok tt) in
  (g, _ <- gathered ;;; Ok (GLOBAL_CONTEXT g)).

End Browser.

(** ** Identity documents and the enrollment constructor *)

Module Identity.
Import Enroll.

(** [bloombox.identity.IDException]. *)
Record IDException := { ide_message : string }.

Section Constructors.
(** [String.prototype.toUpperCase] and [window.btoa], which the engine
    provides. *)
Variable toUpperCase : string -> string.
Variable btoa : string -> string.

(** The constructor [bloombox.identity.ID].  The four checked arguments
    are raw values; [country] is an optional string. *)
Definition new_ID (type : Z) (id expirationDate birthDate jurisdiction : value)
    (country : option string) : result IDException ID :=
  if negb (truthy id) || negb (String.eqb (typeof id) "string")
  then Throw {| ide_message :=
                  "Invalid driver's license ID: '" ++ toString id ++ "'." |}
  else if negb (truthy expirationDate)
          || negb (String.eqb (typeof expirationDate) "string")
  then Throw {| ide_message :=
                  "Invalid driver's license expiry date: '"
                  ++ toString expirationDate ++ "'." |}
  else if negb (truthy birthDate)
          || negb (String.eqb (typeof birthDate) "string")
  then Throw {| ide_message :=
                  "Invalid driver's license birth date: '"
                  ++ toString birthDate ++ "'." |}
  else if negb (truthy jurisdiction)
          || negb (String.eqb (typeof jurisdiction) "string")
  then Throw {| ide_message :=
                  "Invalid driver's license issuance jurisdiction: '"
                  ++ toString jurisdiction ++ "'." |}
  else
    (* setup an instant object *)
    let expirationObj := {| iso8601 := expirationDate |} in
    let birthObj := {| iso8601 := birthDate |} in
    Ok {| id_type := type;
          id_id := toString id;
          id_expirationDate := expirationObj;
          id_birthDate := birthObj;
          id_jurisdiction := toUpperCase (toString jurisdiction);
          id_country := if truthy_str country then str_of country else "USA" |}.


End Constructors.

End Identity.

(** * Auxiliary definitions for the proofs *)

Module SerializeParts.
Import Telemetry.

(** The value under key [k2] of the object under key [k1]. *)
Definition lookup2 (o : gmap string value) (k1 k2 : string) : option value :=
  match o !! k1 with
  | Some (Obj m) => m !! k2
  | _ => None
  end.

(** The first half of [serialize]: the five fields copied from the
    record. *)
Definition base_fields (this : Context) : gmap string value :=
  let baseContext : gmap string value := ∅ in
  let baseContext :=
    match collection this with
    | Some c => <["collection" := Collection_serialize c]> baseContext
    | None => baseContext
    end in
  let baseContext :=
    if truthy_str (fingerprint this)
    then <["fingerprint" := Str (str_of (fingerprint this))]> baseContext
    else baseContext in
  let baseContext :=
    if truthy_str (session this)
    then <["group" := Str (str_of (session this))]> baseContext
    else baseContext in
  let baseContext :=
    match user this with
    | Some u => <["user" := obj [("uid", Str (uk_uid u))]]> baseContext
    | None => baseContext
    end in
  let baseContext :=
    match order this with
    | Some o => <["order" := obj [("id", Str (ok_id o))]]> baseContext
    | None => baseContext
    end in baseContext.


(** The second half of [serialize], from the scope on, over the object
    built so far. *)
Definition serialize_tail (baseContext : gmap string value) (this : Context)
  : result thrown (gmap string value) :=
  partnerScope <-
    match location this with
    | Some loc =>
        match device this with
        | Some dev =>
            p <- deref (plk_partner loc) ;;;
            Ok (Some (String.concat "/"
                        [pk_code p; plk_code loc; pdk_uuid dev]))
        | None =>
            p <- deref (plk_partner loc) ;;;
            dev <- deref (device this) ;;;
            Ok (Some (String.concat "/" [pk_code p; pdk_uuid dev]))
        end
    | None =>
        if truthy_str (partner this)
        then
          loc <- deref (location this) ;;;
          p <- deref (plk_partner loc) ;;;
          Ok (Some (pk_code p))
        else Ok None
    end ;;;
  let baseContext :=
    if truthy_str partnerScope
    then <["scope" := obj [("partner", Str (str_of partnerScope))]]>
           baseContext
    else baseContext in
  let baseContext :=
    match order this with
    | Some o =>
        if negb (truthy (default Undefined (baseContext !! "scope")))
        then <["scope" := obj [("order", Str (ok_id o))]]> baseContext
        else baseContext
    | None => baseContext
    end in
  match browser this with
  | Some b =>
      sb <- serializeBrowserContext b ;;;
      Ok (<["browser" := sb]> baseContext)
  | None => Ok baseContext
  end.

(** Case analysis on the five fields [base_fields] reads. *)
Ltac base_cases c :=
  unfold base_fields;
  destruct (collection c), (truthy_str (fingerprint c)),
    (truthy_str (session c)), (user c), (order c).

End SerializeParts.

Module SenderParts.
Import Shop.

(** The test [bloombox.shop.info] and [bloombox.shop.zipcheck] both make
    on the configuration before anything else is done with it: the
    partner code is missing, or one of the two codes is not a string of
    more than one character. *)
Definition config_rejected (config : Config) : bool :=
  negb (truthy (cfg_partner config))
  || negb (String.eqb (typeof (cfg_partner config)) "string"
           && Nat.ltb 1 (strlen (cfg_partner config)))
  || negb (String.eqb (typeof (cfg_location config)) "string"
           && Nat.ltb 1 (strlen (cfg_location config))).

(** The test [Enrollment.prototype.send] makes: a code is missing. *)
Definition config_missing (config : Config) : bool :=
  negb (truthy (cfg_partner config)) || negb (truthy (cfg_location config)).

End SenderParts.

Module RenderParts.
Import Telemetry.

(** The browser part of the arguments can be serialized: there is none,
    or its three sub-messages are set. *)
Definition browser_complete (b : option BrowserDeviceContext) : bool :=
  match b with
  | Some b =>
      match bdc_os b, bdc_app b, bdc_library b with
      | Some _, Some _, Some _ => true
      | _, _, _ => false
      end
  | None => true
  end.

End RenderParts.

Module Delivery.
Import Shop.

(** The transport calling the continuations of one [rpc.send] several
    times in a row: the closure variable [done] is carried from call to
    call, the effects are collected in order. *)
Fixpoint deliver_all {Cb : Type}
    (step : bool -> delivery -> bool * list (effect Cb))
    (done : bool) (ds : list delivery) : bool * list (effect Cb) :=
  match ds with
  | [] => (done, [])
  | d :: rest =>
      let '(done, effects) := step done d in
      let '(done, later) := deliver_all step done rest in
      (done, app effects later)
  end.

End Delivery.

Module CacheParts.
Import GlobalContext.

(** Any change of the session storage made by other code between two
    calls. *)
Definition sessionStorage_update
    (f : gmap string string -> gmap string string) (w : World) : World :=
  {| DEVICE_FINGERPRINT := DEVICE_FINGERPRINT w;
     SESSION_ID := SESSION_ID w;
     localStorage := localStorage w;
     sessionStorage := f (sessionStorage w);
     drawn := drawn w;
     logged := logged w |}.

(** A page load in a new browser session: the variables are [null], the
    local storage persists, the session storage starts empty. *)
Definition new_session (w : World) : World :=
  {| DEVICE_FINGERPRINT := None;
     SESSION_ID := None;
     localStorage := localStorage w;
     sessionStorage := ∅;
     drawn := drawn w;
     logged := [] |}.

End CacheParts.

Module IdentityParts.

(** The test the [ID] constructor makes on each of its four checked
    arguments: a string that is not empty. *)
Definition nonempty_string (v : value) : bool :=
  truthy v && String.eqb (typeof v) "string".

End IdentityParts.

(** * Concrete inputs

    The arguments, configurations and responses at which the properties
    below are evaluated. *)

Module Inputs.
Import Telemetry.

(** A location code and no partner code. *)
Definition location_only : ContextArgs :=
  {| opt_collection := None; opt_partner := None;
     opt_location := Some "sacramento";
     opt_fingerprint := None; opt_session := None; opt_user := None;
     opt_device := None; opt_order := None; opt_browser := None |}.

(** Partner and location, no device. *)
Definition partner_location : ContextArgs :=
  {| opt_collection := None; opt_partner := Some "mm";
     opt_location := Some "sacramento";
     opt_fingerprint := Some "f-1"; opt_session := Some "s-1";
     opt_user := None; opt_device := None; opt_order := None;
     opt_browser := None |}.

(** Partner, location and device. *)
Definition partner_location_device : ContextArgs :=
  {| opt_collection := None; opt_partner := Some "mm";
     opt_location := Some "sacramento";
     opt_fingerprint := None; opt_session := None; opt_user := None;
     opt_device := Some "d-7"; opt_order := None; opt_browser := None |}.

(** A partner code alone. *)
Definition partner_only : ContextArgs :=
  {| opt_collection := None; opt_partner := Some "mm";
     opt_location := None;
     opt_fingerprint := None; opt_session := None; opt_user := None;
     opt_device := None; opt_order := None; opt_browser := None |}.

(** Fingerprint, session, user and order; no partner scope. *)
Definition user_order : ContextArgs :=
  {| opt_collection := Some {| name := "dmlld3M=" |};
     opt_partner := None; opt_location := None;
     opt_fingerprint := Some "f-1"; opt_session := Some "s-1";
     opt_user := Some "u-3"; opt_device := None;
     opt_order := Some "o-9"; opt_browser := None |}.

(** *** Global context cache *)

(** A generator that hands out [uuid-0], [uuid-1], ... *)
Definition counting_uuid (n : nat) : string := "uuid-" ++ pretty n.

(** A fresh browser: nothing stored, nothing cached. *)
Definition fresh_world : GlobalContext.World :=
  {| GlobalContext.DEVICE_FINGERPRINT := None;
     GlobalContext.SESSION_ID := None;
     GlobalContext.localStorage := ∅;
     GlobalContext.sessionStorage := ∅;
     GlobalContext.drawn := 0;
     GlobalContext.logged := [] |}.

(** *** Senders *)

(** No partner and no location configured. *)
Definition unconfigured : Shop.Config :=
  {| Shop.cfg_partner := Undefined; Shop.cfg_location := Undefined |}.

(** One-character codes: present, and too short for the shop senders. *)
Definition short_codes : Shop.Config :=
  {| Shop.cfg_partner := Str "a"; Shop.cfg_location := Str "b" |}.

(** Well-formed codes. *)
Definition configured : Shop.Config :=
  {| Shop.cfg_partner := Str "mm"; Shop.cfg_location := Str "sacramento" |}.

Definition jane : Enroll.Person :=
  {| Enroll.p_name :=
       {| Enroll.firstName := Str "Jane"; Enroll.lastName := Str "Doe" |};
     Enroll.contactInfo :=
       {| Enroll.emailAddress := Str "jane@example.com";
          Enroll.phoneNumber := Str "+19165550100";
          Enroll.streetAddress :=
            {| Enroll.sa_firstLine := Str "1 Main St";
               Enroll.sa_secondLine := Null;
               Enroll.sa_city := Str "Sacramento";
               Enroll.sa_state := Str "CA";
               Enroll.sa_zip := Str "95814";
               Enroll.sa_country := Str "USA" |} |};
     Enroll.dateOfBirth := {| Enroll.iso8601 := Str "1980-01-01" |} |}.

(** An enrollment with no password and no doctor website. *)
Definition enrollment : Enroll.Enrollment :=
  {| Enroll.source := Str "ONLINE";
     Enroll.channel := Str "web";
     Enroll.person := jane;
     Enroll.doctorRec :=
       {| Enroll.dr_id := Str "R-1";
          Enroll.dr_expirationDate := {| Enroll.iso8601 := Str "2030-01-01" |};
          Enroll.dr_state := Str "CA";
          Enroll.dr_country := Str "USA";
          Enroll.doctorName :=
            {| Enroll.firstName := Str "Greg"; Enroll.lastName := Str "House" |};
          Enroll.doctorPhone := Str "+19165550101";
          Enroll.doctorWebsite := Null |};
     Enroll.license :=
       {| Enroll.id_type := 0;
          Enroll.id_id := "D1234567";
          Enroll.id_expirationDate := {| Enroll.iso8601 := Str "2030-06-01" |};
          Enroll.id_birthDate := {| Enroll.iso8601 := Str "1980-01-01" |};
          Enroll.id_jurisdiction := "CA";
          Enroll.id_country := "USA" |};
     Enroll.password := Null;
     Enroll.dryRun := false |}.

(** The same enrollment with a doctor website. *)
Definition enrollment_with_website : Enroll.Enrollment :=
  {| Enroll.source := Enroll.source enrollment;
     Enroll.channel := Enroll.channel enrollment;
     Enroll.person := Enroll.person enrollment;
     Enroll.doctorRec :=
       {| Enroll.dr_id := Str "R-1";
          Enroll.dr_expirationDate := {| Enroll.iso8601 := Str "2030-01-01" |};
          Enroll.dr_state := Str "CA";
          Enroll.dr_country := Str "USA";
          Enroll.doctorName :=
            {| Enroll.firstName := Str "Greg"; Enroll.lastName := Str "House" |};
          Enroll.doctorPhone := Str "+19165550101";
          Enroll.doctorWebsite := Str "https://example.com" |};
     Enroll.license := Enroll.license enrollment;
     Enroll.password := Enroll.password enrollment;
     Enroll.dryRun := Enroll.dryRun enrollment |}.

End Inputs.

Module MoreInputs.
Import Telemetry.

(** A visit with collection, fingerprint, session and user; no partner
    scope and no order. *)
Definition anonymous_visit : ContextArgs :=
  {| opt_collection := Some {| name := "dmlld3M=" |};
     opt_partner := None; opt_location := None;
     opt_fingerprint := Some "f-1"; opt_session := Some "s-1";
     opt_user := Some "u-3"; opt_device := None;
     opt_order := None; opt_browser := None |}.

(** A device with its full scope and an order. *)
Definition kiosk_order : ContextArgs :=
  {| opt_collection := None; opt_partner := Some "mm";
     opt_location := Some "sacramento";
     opt_fingerprint := None; opt_session := None; opt_user := None;
     opt_device := Some "d-7"; opt_order := Some "o-9";
     opt_browser := None |}.

(** Numbers for the generated enumerations. *)
Definition enum_numbers : Browser.Enums :=
  {| Browser.BROWSER_UNKNOWN := 0; Browser.CHROME := 1;
     Browser.SAFARI := 2; Browser.FIREFOX := 3; Browser.OPERA := 4;
     Browser.IE_OR_EDGE := 5;
     Browser.UNKNOWN_DEVICE_TYPE := 0; Browser.DESKTOP := 1;
     Browser.TABLET := 2; Browser.PHONE := 3;
     Browser.OS_UNKNOWN := 0; Browser.IOS := 1;
     Browser.WINDOWS_PHONE := 2; Browser.WINDOWS := 3;
     Browser.ANDROID := 4; Browser.MACOS := 5; Browser.LINUX := 6 |}.

(** Chrome on a Linux desktop. *)
Definition chrome_on_linux : Browser.Environment :=
  {| Browser.userAgent_VERSION := "120.0";
     Browser.product_CHROME := true;
     Browser.product_SAFARI := false;
     Browser.product_FIREFOX := false;
     Browser.product_OPERA := false;
     Browser.userAgent_EDGE_OR_IE := false;
     Browser.device_isDesktop := true;
     Browser.device_isTablet := false;
     Browser.device_isMobile := false;
     Browser.platform_VERSION := "6.1";
     Browser.userAgent_IPAD := false;
     Browser.userAgent_IPHONE := false;
     Browser.userAgent_IPOD := false;
     Browser.userAgent_IOS := false;
     Browser.userAgent_WINDOWS := false;
     Browser.userAgent_MOBILE := false;
     Browser.product_ANDROID := false;
     Browser.userAgent_MAC := false;
     Browser.userAgent_LINUX := true;
     Browser.document_origin := "https://shop.example.com";
     Browser.bloombox_VERSION := "v1r1";
     Browser.bloombox_VARIANT := "full" |}.

(** An active configuration with both codes, and one with none. *)
Definition shop_config : Browser.ActiveConfig :=
  {| Browser.config_partner := Some "mm";
     Browser.config_location := Some "sacramento" |}.

Definition empty_config : Browser.ActiveConfig :=
  {| Browser.config_partner := None; Browser.config_location := None |}.

(** The process-wide state of a fresh page in a fresh browser. *)
Definition fresh_globals : Browser.Globals :=
  {| Browser.GLOBAL_CONTEXT := None; Browser.world := Inputs.fresh_world |}.

(** Upper-casing of the letters [a] to [z]. *)
Definition upper_ascii (c : ascii) : ascii :=
  let n := nat_of_ascii c in
  if Nat.leb 97 n && Nat.leb n 122 then ascii_of_nat (n - 32) else c.

Fixpoint upper_letters (s : string) : string :=
  match s with
  | EmptyString => EmptyString
  | String c rest => String (upper_ascii c) (upper_letters rest)
  end.


End MoreInputs.

(** * Properties *)

(** ** Context construction and the two renderings *)

Module ContextSpec.
Import Telemetry SerializeParts Inputs.

Local Arguments truthy_str : simpl never.

(** The constructor returns on every input: the [throw] of the source
    sits behind a test that repeats the one before it. *)
Lemma new_Context_returns (a : ContextArgs) :
  exists c, new_Context a = Ok c.
Proof.
  unfold new_Context.
  destruct (truthy_str (opt_partner a) && truthy_str (opt_location a));
    simpl; eauto.
Qed.

(** A constructed context that has a location has the partner inside
    it, and both codes were supplied. *)
Lemma new_Context_location_has_partner (a : ContextArgs) (c : Context)
    (l : PartnerLocationKey) :
  new_Context a = Ok c ->
  location c = Some l ->
  truthy_str (opt_partner a) = true /\
  truthy_str (opt_location a) = true /\
  plk_code l = str_of (opt_location a) /\
  plk_partner l = Some {| pk_code := str_of (opt_partner a) |}.
Proof.
  unfold new_Context.
  destruct (truthy_str (opt_partner a)) eqn:Hp;
    destruct (truthy_str (opt_location a)) eqn:Hl; simpl;
    intros [= <-]; simpl; intros [= <-]; auto.
Qed.

(** C1. Claimed: a construction with the location supplied and the
    partner absent raises a [ContextException].  The code: for every
    such argument list the constructor returns a context, with no
    location in it; nothing is raised. *)
Theorem location_without_partner_not_rejected (a : ContextArgs) :
  truthy_str (opt_location a) = true ->
  truthy_str (opt_partner a) = false ->
  exists c, new_Context a = Ok c /\ location c = None.
Proof.
  intros Hl Hp. unfold new_Context. rewrite Hp, Hl. simpl.
  eexists. split; reflexivity.
Qed.

Lemma location_without_partner_not_rejected_witness :
  exists c, new_Context location_only = Ok c /\ location c = None.
Proof.
  apply (location_without_partner_not_rejected location_only);
    reflexivity.
Defined.

(** C5. For every context constructed with partner and location and no
    device, [serialize] throws a [TypeError]: the branch for a missing
    device reads [this.device.getUuid()]. *)
Theorem serialize_throws_without_device (a : ContextArgs) :
  truthy_str (opt_partner a) = true ->
  truthy_str (opt_location a) = true ->
  truthy_str (opt_device a) = false ->
  exists c, new_Context a = Ok c /\ serialize c = Throw TypeError.
Proof.
  intros Hp Hl Hd. unfold new_Context. rewrite Hp, Hl, Hd. simpl.
  eexists. split; [reflexivity|].
  unfold serialize. simpl. reflexivity.
Qed.

Lemma serialize_throws_without_device_witness :
  exists c, new_Context partner_location = Ok c /\
            serialize c = Throw TypeError.
Proof.
  apply (serialize_throws_without_device partner_location); reflexivity.
Defined.

(** [export] returns a message whose scope is unset, whatever the
    context: the scope it computes stays in a local variable. *)
Lemma export_never_sets_scope (c : Context) (pc : ProtoContext) :
  export c = Ok pc -> pc_scope pc = None.
Proof.
  unfold export.
  destruct (export_scope c); simpl; [|discriminate].
  destruct (truthy_str (fingerprint c)), (truthy_str (session c)),
    (collection c), (user c), (browser c);
    intros [= <-]; reflexivity.
Qed.

(** C2. Claimed: both renderings emit [scope.partner] as the
    [/]-joined path of the identifiers that are present, one to three
    segments, and agree on it.  The code, for partner [mm], location
    [sacramento] and device [d-7]: [serialize] emits [mm/sacramento/d-7];
    [export] emits no scope at all, and the string it computes and drops
    is [partner/mmlocation/sacramentodevice/d-7].  With partner and
    location only, [serialize] throws; with the partner only, neither
    rendering has a scope. *)
Theorem renderings_disagree_on_scope :
  (exists c o pc,
      new_Context partner_location_device = Ok c /\
      serialize c = Ok o /\
      o !! "scope" = Some (obj [("partner", Str "mm/sacramento/d-7")]) /\
      export c = Ok pc /\
      pc_scope pc = None /\
      export_scope c =
        Ok {| scope_partner :=
                Some "partner/mmlocation/sacramentodevice/d-7";
              scope_commercial := None |}) /\
  (exists c pc,
      new_Context partner_location = Ok c /\
      serialize c = Throw TypeError /\
      export c = Ok pc /\
      pc_scope pc = None /\
      export_scope c =
        Ok {| scope_partner := Some "partner/mmlocation/sacramento";
              scope_commercial := None |}) /\
  (exists c o pc,
      new_Context partner_only = Ok c /\
      serialize c = Ok o /\
      o !! "scope" = None /\
      export c = Ok pc /\
      pc_scope pc = None).
Proof.
  repeat split.
  - do 3 eexists. repeat split; vm_compute; reflexivity.
  - do 2 eexists. repeat split; vm_compute; reflexivity.
  - do 3 eexists. repeat split; vm_compute; reflexivity.
Qed.

(** The copied fields: a key is there only for a field of the record,
    and neither [scope] nor [browser] is set yet. *)
Lemma base_fields_keys (c : Context) :
  (collection c = None -> base_fields c !! "collection" = None) /\
  (truthy_str (fingerprint c) = false -> base_fields c !! "fingerprint" = None) /\
  (truthy_str (session c) = false -> base_fields c !! "group" = None) /\
  (user c = None -> base_fields c !! "user" = None) /\
  (order c = None -> base_fields c !! "order" = None) /\
  base_fields c !! "scope" = None /\
  base_fields c !! "browser" = None.
Proof.
  base_cases c; repeat split; intros; try discriminate; reflexivity.
Qed.

(** None of the copied fields holds [null] or [undefined]. *)
Lemma base_fields_not_nullish (c : Context) :
  map_Forall (fun _ v => is_nullish v = false) (base_fields c).
Proof.
  base_cases c;
    repeat (apply map_Forall_insert_2; [reflexivity|]);
    apply map_Forall_empty.
Qed.

(** [serialize] is its two halves in sequence. *)
Lemma serialize_split (c : Context) :
  serialize c = serialize_tail (base_fields c) c.
Proof. reflexivity. Qed.

(** A serialized browser context is an object. *)
Lemma serializeBrowserContext_object (b : BrowserDeviceContext) (sb : value) :
  serializeBrowserContext b = Ok sb -> is_nullish sb = false.
Proof.
  unfold serializeBrowserContext.
  destruct (bdc_os b), (bdc_app b), (bdc_library b); simpl;
    try discriminate; intros [= <-]; reflexivity.
Qed.

(** Reading a nested key through an update of the outer object. *)
Lemma lookup2_insert_ne (m : gmap string value) (k k1 k2 : string) (v : value) :
  k <> k1 -> lookup2 (<[k := v]> m) k1 k2 = lookup2 m k1 k2.
Proof. intros H. unfold lookup2. by rewrite lookup_insert_ne. Qed.

Lemma lookup2_insert_eq (m : gmap string value) (k k2 : string)
    (props : gmap string value) :
  lookup2 (<[k := Obj props]> m) k k2 = props !! k2.
Proof. unfold lookup2. by rewrite lookup_insert_eq. Qed.

Lemma lookup2_None (m : gmap string value) (k1 k2 : string) :
  m !! k1 = None -> lookup2 m k1 k2 = None.
Proof. intros H. unfold lookup2. by rewrite H. Qed.

(** The second half touches the keys [scope] and [browser] only; it
    sets [scope.partner] only with a location and a device, [scope.order]
    only with an order, [browser] only with a browser context, and never
    to [null] or [undefined]. *)
Lemma serialize_tail_keys (b : gmap string value) (c : Context)
    (o : gmap string value) :
  b !! "scope" = None ->
  serialize_tail b c = Ok o ->
  (forall k, k <> "scope" -> k <> "browser" -> o !! k = b !! k) /\
  ((location c = None \/ device c = None) ->
   lookup2 o "scope" "partner" = None) /\
  (order c = None -> lookup2 o "scope" "order" = None) /\
  ((location c = None \/ device c = None) -> order c = None ->
   o !! "scope" = None) /\
  (browser c = None -> b !! "browser" = None -> o !! "browser" = None) /\
  (map_Forall (fun _ v => is_nullish v = false) b ->
   map_Forall (fun _ v => is_nullish v = false) o).
Proof.
  intros Hscope. unfold serialize_tail.
  destruct (location c) as [[lc [pk|]]|], (device c) as [dv|],
    (truthy_str (partner c)); simpl; try discriminate.
  all: try match goal with
       | |- context [truthy_str (Some ?s)] => destruct (truthy_str (Some s))
       end.
  all: try change (truthy_str None) with false; cbv iota.
  all: destruct (order c) as [od|];
    rewrite ?lookup_insert_eq, ?Hscope; simpl.
  all: destruct (browser c) as [br|];
    [ destruct (serializeBrowserContext br) as [sb|] eqn:Hsb; simpl;
      try discriminate;
      apply serializeBrowserContext_object in Hsb | ];
    intros [= <-].
  all: repeat split.
  all: try (intros; rewrite ?lookup_insert_ne by congruence; reflexivity).
  all: try (intros; discriminate).
  all: try (intros [?|?]; discriminate).
  all: try (intros; unfold obj; rewrite ?lookup2_insert_ne by discriminate;
            rewrite ?lookup2_insert_eq; try reflexivity;
            apply lookup2_None; assumption).
  all: try (intros; rewrite ?lookup_insert_ne by discriminate; assumption).
  all: try (intros;
            repeat (apply map_Forall_insert_2; [assumption || reflexivity|]);
            assumption).
Qed.

(** [o || null] is truthy exactly when [o] is. *)
Lemma truthy_str_or_null (o : option string) :
  truthy_str (or_null o) = truthy_str o.
Proof.
  unfold or_null. destruct (truthy_str o) eqn:H; [exact H | reflexivity].
Qed.

(** The fields of a constructed context in terms of the arguments. *)
Lemma new_Context_fields (a : ContextArgs) (c : Context) :
  new_Context a = Ok c ->
  collection c = opt_collection a /\
  fingerprint c = or_null (opt_fingerprint a) /\
  session c = or_null (opt_session a) /\
  (truthy_str (opt_user a) = false -> user c = None) /\
  (truthy_str (opt_order a) = false -> order c = None) /\
  (truthy_str (opt_partner a) && truthy_str (opt_location a) = false ->
   location c = None) /\
  (truthy_str (opt_device a) = false -> device c = None) /\
  browser c = opt_browser a /\
  partner c = None.
Proof.
  unfold new_Context.
  destruct (truthy_str (opt_partner a)), (truthy_str (opt_location a));
    simpl; intros [= <-]; simpl; repeat split; try discriminate;
    intros ->; reflexivity.
Qed.

(** The wire message has a field only for a field of the record, and
    never a scope. *)
Lemma export_fields (c : Context) (pc : ProtoContext) :
  export c = Ok pc ->
  (collection c = None -> pc_collection pc = None) /\
  (truthy_str (fingerprint c) = false -> pc_fingerprint pc = None) /\
  (truthy_str (session c) = false -> pc_group pc = None) /\
  (user c = None -> pc_user pc = None) /\
  pc_scope pc = None /\
  (browser c = None -> pc_browser pc = None).
Proof.
  unfold export.
  destruct (export_scope c); simpl; [|discriminate].
  destruct (truthy_str (fingerprint c)), (truthy_str (session c)),
    (collection c), (user c), (browser c);
    intros [= <-]; simpl; repeat split; intros; try discriminate; reflexivity.
Qed.

(** C4. For every constructed context, neither rendering has a key for
    a field that was not supplied, and no key of the plain object holds
    [null] or [undefined].  In the plain object the key [scope] holds the
    partner path (only when partner, location and device were all
    supplied) or the order id (only when an order was supplied); [export]
    leaves the scope unset. *)
Theorem renderings_omit_absent_fields (a : ContextArgs) (c : Context) :
  new_Context a = Ok c ->
  (forall o, serialize c = Ok o ->
     (opt_collection a = None -> o !! "collection" = None) /\
     (truthy_str (opt_fingerprint a) = false -> o !! "fingerprint" = None) /\
     (truthy_str (opt_session a) = false -> o !! "group" = None) /\
     (truthy_str (opt_user a) = false -> o !! "user" = None) /\
     (truthy_str (opt_order a) = false -> o !! "order" = None) /\
     (truthy_str (opt_partner a) && truthy_str (opt_location a)
        && truthy_str (opt_device a) = false ->
      lookup2 o "scope" "partner" = None) /\
     (truthy_str (opt_order a) = false ->
      lookup2 o "scope" "order" = None) /\
     (truthy_str (opt_partner a) && truthy_str (opt_location a)
        && truthy_str (opt_device a) = false ->
      truthy_str (opt_order a) = false ->
      o !! "scope" = None) /\
     (opt_browser a = None -> o !! "browser" = None) /\
     (forall k v, o !! k = Some v -> is_nullish v = false)) /\
  (forall pc, export c = Ok pc ->
     (opt_collection a = None -> pc_collection pc = None) /\
     (truthy_str (opt_fingerprint a) = false -> pc_fingerprint pc = None) /\
     (truthy_str (opt_session a) = false -> pc_group pc = None) /\
     (truthy_str (opt_user a) = false -> pc_user pc = None) /\
     pc_scope pc = None /\
     (opt_browser a = None -> pc_browser pc = None)).
Proof.
  intros Hnew.
  destruct (new_Context_fields a c Hnew)
    as (Hcol & Hfp & Hses & Husr & Hord & Hloc & Hdev & Hbr & _).
  assert (Hscope : truthy_str (opt_partner a) && truthy_str (opt_location a)
                     && truthy_str (opt_device a) = false ->
                   location c = None \/ device c = None).
  { intros H. apply andb_false_iff in H as [H|H]; [left|right]; auto. }
  split.
  - intros o Hser. rewrite serialize_split in Hser.
    destruct (base_fields_keys c)
      as (Bcol & Bfp & Bses & Busr & Bord & Bscope & Bbr).
    destruct (serialize_tail_keys _ c o Bscope Hser)
      as (Hsame & Tpart & Tord & Tscope & Tbr & Tnn).
    repeat split.
    + intros H. rewrite Hsame by discriminate. apply Bcol. congruence.
    + intros H. rewrite Hsame by discriminate. apply Bfp.
      rewrite Hfp, truthy_str_or_null. exact H.
    + intros H. rewrite Hsame by discriminate. apply Bses.
      rewrite Hses, truthy_str_or_null. exact H.
    + intros H. rewrite Hsame by discriminate. auto.
    + intros H. rewrite Hsame by discriminate. auto.
    + auto.
    + auto.
    + auto.
    + intros H. apply Tbr; [congruence | exact Bbr].
    + intros k v Hk. exact (Tnn (base_fields_not_nullish c) k v Hk).
  - intros pc Hexp.
    destruct (export_fields c pc Hexp)
      as (Ecol & Efp & Eses & Eusr & Esc & Ebr).
    repeat split; auto.
    + intros H. apply Ecol. congruence.
    + intros H. apply Efp. rewrite Hfp, truthy_str_or_null. exact H.
    + intros H. apply Eses. rewrite Hses, truthy_str_or_null. exact H.
    + intros H. apply Ebr. congruence.
Qed.

Lemma renderings_omit_absent_fields_witness :
  exists c,
    new_Context user_order = Ok c /\
    (exists o, serialize c = Ok o) /\
    (exists pc, export c = Ok pc) /\
    (forall o, serialize c = Ok o ->
       o !! "browser" = None /\ lookup2 o "scope" "partner" = None) /\
    (forall pc, export c = Ok pc ->
       pc_scope pc = None /\ pc_browser pc = None).
Proof.
  eexists. split; [reflexivity|].
  split; [eexists; vm_compute; reflexivity|].
  split; [eexists; vm_compute; reflexivity|].
  destruct (renderings_omit_absent_fields user_order _ eq_refl) as [Hs He].
  split.
  - intros o Ho.
    destruct (Hs o Ho) as (_ & _ & _ & _ & _ & Hp & _ & _ & Hb & _).
    split; [apply Hb | apply Hp]; reflexivity.
  - intros pc Hpc.
    destruct (He pc Hpc) as (_ & _ & _ & _ & Hsc & Hbr).
    split; [exact Hsc | apply Hbr; reflexivity].
Defined.

End ContextSpec.

(** ** Global context cache *)

Module CacheSpec.
Import GlobalContext Inputs.

Section Resolver.
Variable generateUUID : nat -> string.

(** After a call the process-wide variable holds the returned string. *)
Lemma resolveFingerprint_caches (w : World) :
  DEVICE_FINGERPRINT (snd (resolveFingerprint generateUUID w)) =
  Some (fst (resolveFingerprint generateUUID w)).
Proof.
  unfold resolveFingerprint.
  destruct (DEVICE_FINGERPRINT w) as [fp|] eqn:Hfp; simpl; [exact Hfp|].
  destruct (truthy_str (localStorage w !! DEVICE_FINGERPRINT_KEY));
    reflexivity.
Qed.

(** With the variable set, a call returns it and changes nothing. *)
Lemma resolveFingerprint_cached (w : World) (fp : string) :
  DEVICE_FINGERPRINT w = Some fp ->
  resolveFingerprint generateUUID w = (fp, w).
Proof. intros H. unfold resolveFingerprint. rewrite H. reflexivity. Qed.

(** With the variable unset and no usable entry in local storage, a call
    draws a new identifier and stores it. *)
Lemma resolveFingerprint_generates (w : World) :
  DEVICE_FINGERPRINT w = None ->
  truthy_str (localStorage w !! DEVICE_FINGERPRINT_KEY) = false ->
  fst (resolveFingerprint generateUUID w) = generateUUID (drawn w) /\
  localStorage (snd (resolveFingerprint generateUUID w))
    !! DEVICE_FINGERPRINT_KEY = Some (generateUUID (drawn w)).
Proof.
  intros Hv Hs. unfold resolveFingerprint. rewrite Hv, Hs. simpl.
  split; [reflexivity | apply lookup_insert_eq].
Qed.

End Resolver.

(** C6, as amended. Within one process two calls return the same string,
    whatever happens to the local storage between them (clearing
    included); once the storage is cleared and the page is loaded anew,
    the next call returns a newly drawn identifier. *)
Theorem resolveFingerprint_stable_within_process
    (generateUUID : nat -> string) (w : World)
    (f : gmap string string -> gmap string string) :
  let first := resolveFingerprint generateUUID w in
  fst (resolveFingerprint generateUUID (localStorage_update f (snd first)))
  = fst first
  /\ fst (resolveFingerprint generateUUID
            (restart (localStorage_clear (snd first))))
     = generateUUID (drawn (snd first)).
Proof.
  intros first. split.
  - pose proof (resolveFingerprint_caches generateUUID w) as Hc.
    fold first in Hc.
    rewrite (resolveFingerprint_cached generateUUID _ (fst first));
      [reflexivity | exact Hc].
  - destruct (resolveFingerprint_generates generateUUID
                (restart (localStorage_clear (snd first)))) as [H _].
    + reflexivity.
    + simpl. rewrite lookup_empty. reflexivity.
    + exact H.
Qed.

(** C6, as claimed, fails: in a fresh browser the first call draws
    [uuid-0]; after the storage is cleared (the slot is empty) the second
    call of the same process returns [uuid-0] again, not a new string. *)
Lemma resolveFingerprint_survives_clearing :
  let first := resolveFingerprint counting_uuid fresh_world in
  let cleared := localStorage_clear (snd first) in
  fst first = "uuid-0" /\
  localStorage cleared !! DEVICE_FINGERPRINT_KEY = None /\
  fst (resolveFingerprint counting_uuid cleared) = fst first.
Proof. vm_compute. repeat split. Qed.

End CacheSpec.

(** ** Event serializer *)

Module SerializerSpec.
Import Telemetry Serializer.

(** [v === s] holds exactly of the string [s]. *)
Lemma is_str_true (v : value) (s : string) :
  is_str v s = true <-> v = Str s.
Proof.
  destruct v; simpl; try (split; [discriminate | intros [=]]).
  rewrite String.eqb_eq. split; [intros -> | intros [=]]; congruence.
Qed.

Lemma is_str_false (v : value) (s : string) :
  v <> Str s -> is_str v s = false.
Proof.
  intros H. destruct (is_str v s) eqn:E; [|reflexivity].
  apply is_str_true in E. contradiction.
Qed.

(** C10. For the tag [genericEvent] the envelope has the generic event
    set and nothing else typed; for [genericError] the generic error;
    either way the context exactly when one was passed.  Any other tag
    raises a [SerializationException] carrying tag and payload when the
    throw flag is left out or truthy, and returns [null] when the flag is
    passed and falsy. *)
Theorem serializeGeneric_contract (Payload : Type) (type : value)
    (payload : Payload) (opt_context : option ProtoContext)
    (opt_err : value) :
  (type = Str EventTypeProperty.EVENT ->
   serializeGeneric type payload opt_context opt_err =
   ([], Ok (Some {| te_generic := Some payload;
                    te_error := None;
                    te_context := opt_context |}))) /\
  (type = Str EventTypeProperty.EXCEPTION ->
   serializeGeneric type payload opt_context opt_err =
   ([], Ok (Some {| te_generic := None;
                    te_error := Some payload;
                    te_context := opt_context |}))) /\
  (type <> Str EventTypeProperty.EVENT ->
   type <> Str EventTypeProperty.EXCEPTION ->
   (is_undefined opt_err = true \/ truthy opt_err = true ->
    snd (serializeGeneric type payload opt_context opt_err) =
    Throw {| se_message := "Unable to serialize generic TelemetryEvent.";
             se_type := type;
             se_value := payload |}) /\
   (is_undefined opt_err = false -> truthy opt_err = false ->
    snd (serializeGeneric type payload opt_context opt_err) = Ok None)).
Proof.
  repeat split.
  - intros ->. unfold serializeGeneric. simpl.
    destruct opt_context; reflexivity.
  - intros ->. unfold serializeGeneric. simpl.
    destruct opt_context; reflexivity.
  - intros [Hu|Ht]; unfold serializeGeneric;
      rewrite !is_str_false by assumption.
    + rewrite Hu. reflexivity.
    + destruct (is_undefined opt_err); [reflexivity|].
      rewrite Ht. reflexivity.
  - intros Hu Ht. unfold serializeGeneric.
    rewrite !is_str_false by assumption.
    rewrite Hu, Ht. reflexivity.
Qed.

Lemma serializeGeneric_contract_witness :
  serializeGeneric (Str "genericEvent") "clicked" None Undefined =
  ([], Ok (Some {| te_generic := Some "clicked";
                   te_error := None;
                   te_context := None |})) /\
  snd (serializeGeneric (Str "orderAction") "paid" None Undefined) =
  Throw {| se_message := "Unable to serialize generic TelemetryEvent.";
           se_type := Str "orderAction";
           se_value := "paid" |} /\
  snd (serializeGeneric (Str "orderAction") "paid" None (Bool false)) =
  Ok None.
Proof.
  split; [|split].
  - apply (serializeGeneric_contract string (Str "genericEvent") "clicked"
             None Undefined). reflexivity.
  - apply (serializeGeneric_contract string (Str "orderAction") "paid"
             None Undefined); [discriminate | discriminate |].
    left. reflexivity.
  - apply (serializeGeneric_contract string (Str "orderAction") "paid"
             None (Bool false)); [discriminate | discriminate | |];
      reflexivity.
Defined.

End SerializerSpec.

(** ** Request senders *)

Module SenderSpec.
Import Shop Enroll SenderParts Inputs.

(** *** Callback delivery *)

(** The enrollment sender calls back exactly once on every delivery. *)
Lemma enroll_calls_back_once (personObj : Person) (d : delivery) :
  exists call, calls (snd (send_deliver personObj false d)) = [call].
Proof.
  destruct d as [response|status]; simpl.
  - unfold send_success.
    destruct (is_nullish response); simpl; [eauto|].
    destruct (truthy (get response "error")); simpl; [eauto|].
    destruct (truthy (get response "id") && truthy (get response "foreignId"));
      simpl; eauto.
  - eauto.
Qed.

(** The shop-info sender calls back exactly once on a response that is
    not [null] or [undefined], and on a failure. *)
Lemma info_calls_back_once (d : delivery) :
  d <> Succeeded Null -> d <> Succeeded Undefined ->
  exists call, calls (snd (info_deliver false d)) = [call].
Proof.
  intros Hn Hu. destruct d as [response|status]; simpl; [|eauto].
  unfold info_success.
  destruct response; try congruence; simpl; eauto.
  destruct (Js.or _ _) as [| | | | |s|]; simpl; eauto.
  destruct (String.eqb s ShopStatus.CLOSED),
    (String.eqb s ShopStatus.DELIVERY_ONLY),
    (String.eqb s ShopStatus.PICKUP_ONLY); simpl; eauto.
Qed.

(** The same for the zipcode sender. *)
Lemma zipcheck_calls_back_once (d : delivery) :
  d <> Succeeded Null -> d <> Succeeded Undefined ->
  exists call, calls (snd (zipcheck_deliver false d)) = [call].
Proof.
  intros Hn Hu. destruct d as [response|status]; simpl; [|eauto].
  unfold zipcheck_success.
  destruct response; try congruence; simpl; eauto.
Qed.

(** Once a response was handled, a second response is dropped; the
    failure continuation does not consult the guard. *)
Lemma info_guard (response : value) (status : value) :
  info_success true response = (true, []) /\
  exists call, calls (snd (info_failure true status)) = [call].
Proof. split; [reflexivity | simpl; eauto]. Qed.

(** C3. Claimed: on every outcome the transport delivers, each sender
    calls the callback exactly once.  The code: when the transport calls
    the success continuation with [null] (or [undefined]), the shop-info
    and zipcode senders return without calling the callback, and the guard
    stays unset; the enrollment sender has the missing branch. *)
Theorem null_response_is_never_answered :
  info_deliver false (Succeeded Null) = (false, []) /\
  zipcheck_deliver false (Succeeded Null) = (false, []) /\
  info_deliver false (Succeeded Undefined) = (false, []) /\
  zipcheck_deliver false (Succeeded Undefined) = (false, []) /\
  calls (snd (send_deliver jane false (Succeeded Null))) =
  [{| ec_ok := false; ec_error := Null; ec_customer := None |}].
Proof. repeat split. Qed.

(** *** Missing configuration *)

(** A configuration with a missing code fails the test of the shop
    senders as well. *)
Lemma config_missing_rejected (config : Config) :
  config_missing config = true -> config_rejected config = true.
Proof.
  unfold config_missing, config_rejected.
  destruct (truthy (cfg_partner config)); simpl; [|reflexivity].
  destruct (cfg_location config) as [| |b|n| |s|m]; simpl;
    rewrite ?orb_true_r; try reflexivity; try discriminate.
  destruct s; simpl; [rewrite orb_true_r; reflexivity | discriminate].
Qed.

(** C7, as amended. When the configuration fails the test of the shop
    senders (a code missing, not a string, or shorter than two
    characters), shop-info and zipcheck raise before any RPC is issued
    and before any callback.  When a code is missing, the enrollment
    sender logs one error line and returns: nothing raised, no RPC, no
    callback. *)
Theorem missing_config_handling (config : Config) :
  (config_rejected config = true ->
   (exists message, info config = ([], Throw (ShopInfoException message))) /\
   (forall zipcode, exists trace message,
       zipcheck config zipcode = (trace, Throw (ZipcheckException message)) /\
       requests trace = [] /\ calls trace = [])) /\
  (config_missing config = true ->
   forall this,
     send config this =
     ([Logged ERROR "Partner or location code is not defined."], Ok tt)).
Proof.
  split.
  - intros H. unfold config_rejected in H. split.
    + unfold info. rewrite H. eauto.
    + intros zipcode. unfold zipcheck.
      match goal with
      | |- context [if ?b then _ else _] => destruct b
      end; [eauto|].
      rewrite H. eauto.
  - intros H this. unfold config_missing in H. unfold send.
    rewrite H. reflexivity.
Qed.

Lemma missing_config_handling_witness :
  (exists message,
      info unconfigured = ([], Throw (ShopInfoException message))) /\
  (exists trace message,
      zipcheck unconfigured (Str "95814") =
      (trace, Throw (ZipcheckException message)) /\
      requests trace = [] /\ calls trace = []) /\
  send unconfigured enrollment =
  ([Logged ERROR "Partner or location code is not defined."], Ok tt).
Proof.
  destruct (missing_config_handling unconfigured) as [Hshop Henroll].
  destruct (Hshop eq_refl) as [Hinfo Hzip].
  split; [exact Hinfo|].
  split; [exact (Hzip (Str "95814"))|].
  exact (Henroll eq_refl enrollment).
Defined.

(** C7, as claimed, fails for enrollment: one-character codes are
    malformed (shop-info raises on them), yet the enrollment sender
    neither logs an error nor returns early: it issues the RPC. *)
Lemma enroll_sends_with_malformed_config :
  config_rejected short_codes = true /\
  (exists message,
      info short_codes = ([], Throw (ShopInfoException message))) /\
  (exists rpc,
      send short_codes enrollment =
      ([Logged INFO "Enrolling user..."; Sent rpc], Ok tt) /\
      rpc_routine rpc = ENROLL_USER).
Proof.
  split; [reflexivity|].
  split; [eexists; reflexivity|].
  eexists. split; [vm_compute; reflexivity | reflexivity].
Qed.

(** With well-formed codes the enrollment sender issues its RPC; with a
    doctor website in the recommendation it throws a [TypeError] while
    assembling the request, before any RPC: the website is written under
    [doctorRec.person.contact], and the request has no [doctorRec.person]. *)
Lemma send_throws_with_doctor_website :
  (exists rpc,
      send configured enrollment =
      ([Logged INFO "Enrolling user..."; Sent rpc], Ok tt)) /\
  send configured enrollment_with_website = ([], Throw TypeError).
Proof. split; [eexists|]; vm_compute; reflexivity. Qed.

(** *** Response mapping *)

(** C8. For every shop-info response object the callback receives:
    pickup only for [PICKUP_ONLY]; both for an absent status; neither for
    [CLOSED]; delivery only for [DELIVERY_ONLY]. *)
Theorem shop_status_mapping (props : gmap string value) :
  (props !! "shopStatus" = Some (Str "PICKUP_ONLY") ->
   calls (snd (info_success false (Obj props))) =
   [{| si_pickup := Some true; si_delivery := Some false;
       si_status := Null |}]) /\
  (props !! "shopStatus" = None ->
   calls (snd (info_success false (Obj props))) =
   [{| si_pickup := Some true; si_delivery := Some true;
       si_status := Null |}]) /\
  (props !! "shopStatus" = Some (Str "CLOSED") ->
   calls (snd (info_success false (Obj props))) =
   [{| si_pickup := Some false; si_delivery := Some false;
       si_status := Null |}]) /\
  (props !! "shopStatus" = Some (Str "DELIVERY_ONLY") ->
   calls (snd (info_success false (Obj props))) =
   [{| si_pickup := Some false; si_delivery := Some true;
       si_status := Null |}]).
Proof.
  repeat split; intros H; unfold info_success; simpl; rewrite H;
    reflexivity.
Qed.

Lemma shop_status_mapping_witness :
  calls (snd (info_success false (obj [("shopStatus", Str "PICKUP_ONLY")]))) =
  [{| si_pickup := Some true; si_delivery := Some false;
      si_status := Null |}] /\
  calls (snd (info_success false (obj []))) =
  [{| si_pickup := Some true; si_delivery := Some true;
      si_status := Null |}] /\
  calls (snd (info_success false (obj [("shopStatus", Str "CLOSED")]))) =
  [{| si_pickup := Some false; si_delivery := Some false;
      si_status := Null |}].
Proof.
  split; [|split].
  - apply (shop_status_mapping
             (list_to_map [("shopStatus", Str "PICKUP_ONLY")])).
    vm_compute. reflexivity.
  - apply (shop_status_mapping (list_to_map [])).
    vm_compute. reflexivity.
  - apply (shop_status_mapping (list_to_map [("shopStatus", Str "CLOSED")])).
    vm_compute. reflexivity.
Defined.

(** C9. For every enroll response: with an error in it the callback
    receives [(false, that error, null)]; else with an id and a foreign id
    it receives [(true, null, customer)] where the customer carries the
    foreign id; with neither it receives [(false, null, null)].  A field
    is in the response when reading it gives a truthy value, which is the
    test the handler makes. *)
Theorem enroll_response_mapping (personObj : Person) (response : value) :
  (truthy (get response "error") = true ->
   calls (snd (send_success personObj false response)) =
   [{| ec_ok := false;
       ec_error := get response "error";
       ec_customer := None |}]) /\
  (truthy (get response "error") = false ->
   truthy (get response "id") = true ->
   truthy (get response "foreignId") = true ->
   calls (snd (send_success personObj false response)) =
   [{| ec_ok := true;
       ec_error := Null;
       ec_customer :=
         Some {| cust_person := personObj;
                 cust_foreignId := get response "foreignId" |} |}]) /\
  (truthy (get response "error") = false ->
   truthy (get response "id") = false ->
   truthy (get response "foreignId") = false ->
   calls (snd (send_success personObj false response)) =
   [{| ec_ok := false; ec_error := Null; ec_customer := None |}]).
Proof.
  repeat split.
  - intros He. unfold send_success.
    destruct (is_nullish response) eqn:Hn.
    + destruct response; discriminate.
    + simpl. rewrite He. reflexivity.
  - intros He Hi Hf. unfold send_success.
    destruct (is_nullish response) eqn:Hn.
    + destruct response; discriminate.
    + simpl. rewrite He, Hi, Hf. reflexivity.
  - intros He Hi Hf. unfold send_success.
    destruct (is_nullish response) eqn:Hn; [reflexivity|].
    simpl. rewrite He, Hi, Hf. reflexivity.
Qed.

Lemma enroll_response_mapping_witness :
  calls (snd (send_success jane false
                (obj [("error", Str "ACCOUNT_CONFLICT")]))) =
  [{| ec_ok := false;
      ec_error := get (obj [("error", Str "ACCOUNT_CONFLICT")]) "error";
      ec_customer := None |}] /\
  calls (snd (send_success jane false
                (obj [("id", Str "m-1"); ("foreignId", Str "gs-77")]))) =
  [{| ec_ok := true;
      ec_error := Null;
      ec_customer :=
        Some {| cust_person := jane;
                cust_foreignId :=
                  get (obj [("id", Str "m-1"); ("foreignId", Str "gs-77")])
                    "foreignId" |} |}] /\
  calls (snd (send_success jane false (obj []))) =
  [{| ec_ok := false; ec_error := Null; ec_customer := None |}].
Proof.
  split; [|split].
  - apply (enroll_response_mapping jane
             (obj [("error", Str "ACCOUNT_CONFLICT")])).
    vm_compute. reflexivity.
  - apply (enroll_response_mapping jane
             (obj [("id", Str "m-1"); ("foreignId", Str "gs-77")]));
      vm_compute; reflexivity.
  - apply (enroll_response_mapping jane (obj []));
      vm_compute; reflexivity.
Defined.

End SenderSpec.

(** * Further properties of the code *)

(** ** The renderings of a constructed context *)

Module RenderingSpec.
Import Telemetry SerializeParts RenderParts ProtoRender Inputs MoreInputs
  ContextSpec.

Local Arguments truthy_str : simpl never.

(** A truthy optional string is [Some] of a string that is not empty. *)
Lemma truthy_str_Some (o : option string) :
  truthy_str o = true ->
  exists c s, o = Some (String c s).
Proof.
  destruct o as [[|c s]|]; try discriminate. eauto.
Qed.

(** Its string differs from the empty string. *)
Lemma truthy_str_nonempty (o : option string) :
  truthy_str o = true -> negb (String.eqb (str_of o) "") = true.
Proof.
  intros H. destruct (truthy_str_Some o H) as (c & s & ->). reflexivity.
Qed.

(** A complete browser context serializes to an object; an incomplete
    one is a [TypeError]. *)
Lemma serializeBrowserContext_complete (b : BrowserDeviceContext) :
  browser_complete (Some b) = true ->
  exists sb, serializeBrowserContext b = Ok sb.
Proof.
  unfold browser_complete, serializeBrowserContext.
  destruct (bdc_os b), (bdc_app b), (bdc_library b); try discriminate.
  simpl. eauto.
Qed.

Lemma serializeBrowserContext_incomplete (b : BrowserDeviceContext) :
  browser_complete (Some b) = false ->
  serializeBrowserContext b = Throw TypeError.
Proof.
  unfold browser_complete, serializeBrowserContext.
  destruct (bdc_os b), (bdc_app b), (bdc_library b); try discriminate;
    reflexivity.
Qed.

(** [export] returns on every constructed context and hands the browser
    context through. *)
Lemma export_of_constructed (a : ContextArgs) (c : Context) :
  new_Context a = Ok c ->
  exists pc, export c = Ok pc /\ pc_browser pc = opt_browser a.
Proof.
  intros Hc.
  assert (Hs : exists s, export_scope c = Ok s).
  { unfold export_scope.
    destruct (location c) as [l|] eqn:Hl; [|eauto].
    destruct (new_Context_location_has_partner a c l Hc Hl)
      as (_ & _ & _ & Hp).
    rewrite Hp. destruct (device c); simpl; eauto. }
  destruct Hs as [s Hs].
  destruct (new_Context_fields a c Hc) as (_ & _ & _ & _ & _ & _ & _ & Hb & _).
  unfold export. rewrite Hs, Hb. simpl.
  eexists. split; [reflexivity|].
  destruct (truthy_str (fingerprint c)), (truthy_str (session c)),
    (collection c), (user c), (opt_browser a); reflexivity.
Qed.

(** X1. Whatever the arguments, the constructor returns a context and
    [export] returns a wire message for it: the message carries the
    browser context that was passed and no scope. *)
Theorem export_returns_on_constructed (a : ContextArgs) :
  exists c pc,
    new_Context a = Ok c /\ export c = Ok pc /\
    pc_browser pc = opt_browser a /\ pc_scope pc = None.
Proof.
  destruct (new_Context_returns a) as [c Hc].
  destruct (export_of_constructed a c Hc) as (pc & Hpc & Hb).
  exists c, pc. repeat split; auto.
  apply (export_never_sets_scope c pc Hpc).
Qed.

(** X2. [serialize] returns an object for a constructed context exactly
    when it is not the case that partner and location were supplied
    without a device, and the browser context (if any) has its os, app
    and library parts; whenever it does not return, it throws a
    [TypeError]. *)
Theorem serialize_returns_exactly (a : ContextArgs) :
  exists c,
    new_Context a = Ok c /\
    ((exists o, serialize c = Ok o) <->
     truthy_str (opt_partner a) && truthy_str (opt_location a)
       && negb (truthy_str (opt_device a)) = false
     /\ browser_complete (opt_browser a) = true) /\
    ((forall o, serialize c <> Ok o) -> serialize c = Throw TypeError).
Proof.
  destruct (new_Context_returns a) as [c Hc]. exists c.
  split; [exact Hc|].
  revert Hc. unfold new_Context.
  destruct (truthy_str (opt_partner a)), (truthy_str (opt_location a)),
    (truthy_str (opt_device a)); simpl; intros [= <-];
    unfold serialize; simpl.
  all: destruct (opt_browser a) as [b|];
    [ destruct (browser_complete (Some b)) eqn:Hb;
      [ destruct (serializeBrowserContext_complete b Hb) as [sb Hsb];
        try rewrite Hsb
      | try rewrite (serializeBrowserContext_incomplete b Hb) ]
    | ]; simpl.
  all: split; [split|].
  all: try (intros [o [=]]; fail).
  all: try (intros [[=] _]; fail).
  all: try (intros [_ [=]]; fail).
  all: try (intros _; eauto; fail).
  all: try (intros [o Ho]; split; reflexivity).
  all: try (intros H; try reflexivity; exfalso; eapply H; reflexivity).
Qed.

(** What the second half of [serialize] leaves under [scope]: the joined
    path with a location and a device, the order id with an order and no
    location. *)
Lemma serialize_tail_scope (b : gmap string value) (c : Context)
    (o : gmap string value) :
  b !! "scope" = None ->
  serialize_tail b c = Ok o ->
  (forall loc dev p,
      location c = Some loc -> device c = Some dev ->
      plk_partner loc = Some p ->
      truthy_str (Some (String.concat "/"
                          [pk_code p; plk_code loc; pdk_uuid dev])) = true ->
      o !! "scope" =
      Some (obj [("partner",
                  Str (String.concat "/"
                         [pk_code p; plk_code loc; pdk_uuid dev]))])) /\
  (forall od,
      location c = None -> order c = Some od ->
      o !! "scope" = Some (obj [("order", Str (ok_id od))])).
Proof.
  intros Hscope. unfold serialize_tail.
  destruct (location c) as [[lc [pk|]]|]; simpl.
  - destruct (device c) as [dv|]; simpl; try discriminate.
    destruct (truthy_str (Some _)) eqn:Ht.
    + destruct (order c) as [od|]; rewrite ?lookup_insert_eq; simpl;
        (destruct (browser c) as [br|];
         [destruct (serializeBrowserContext br); simpl; try discriminate|]);
        intros [= <-]; (split; [|discriminate]);
        intros loc dev p [= <-] [= <-] [= <-] _;
        rewrite ?lookup_insert_ne by discriminate;
        apply lookup_insert_eq.
    + intros _. split; [|discriminate].
      intros loc dev p [= <-] [= <-] [= <-]. simpl. congruence.
  - destruct (device c); discriminate.
  - destruct (truthy_str (partner c)); simpl; try discriminate.
    change (truthy_str None) with false. cbv iota.
    destruct (order c) as [od|]; rewrite ?Hscope; simpl;
      (destruct (browser c) as [br|];
       [destruct (serializeBrowserContext br); simpl; try discriminate|]);
      intros [= <-]; (split; [discriminate|]);
      intros od' _ [=]; subst;
      rewrite ?lookup_insert_ne by discriminate;
      apply lookup_insert_eq.
Qed.

(** X3. When [serialize] returns: with partner, location and device
    supplied the key [scope] holds exactly the path
    [partner/location/device] (also when an order was supplied); without
    partner or without location, and with an order, it holds exactly the
    order id. *)
Theorem serialize_scope_contents (a : ContextArgs) (c : Context)
    (o : gmap string value) :
  new_Context a = Ok c ->
  serialize c = Ok o ->
  (truthy_str (opt_partner a) = true ->
   truthy_str (opt_location a) = true ->
   truthy_str (opt_device a) = true ->
   o !! "scope" =
   Some (obj [("partner",
               Str (str_of (opt_partner a) ++ "/" ++ str_of (opt_location a)
                    ++ "/" ++ str_of (opt_device a)))])) /\
  (truthy_str (opt_partner a) && truthy_str (opt_location a) = false ->
   truthy_str (opt_order a) = true ->
   o !! "scope" = Some (obj [("order", Str (str_of (opt_order a)))])).
Proof.
  intros Hnew Hser. rewrite serialize_split in Hser.
  destruct (base_fields_keys c) as (_ & _ & _ & _ & _ & Bscope & _).
  destruct (serialize_tail_scope _ c o Bscope Hser) as [Hpath Hord].
  revert Hnew. unfold new_Context.
  destruct (truthy_str (opt_partner a)) eqn:Hp,
    (truthy_str (opt_location a)) eqn:Hl; simpl; intros [= Hc];
    (split; [intros Tp Tl Td; try discriminate | intros Tpl To; try discriminate]).
  - rewrite <- Hc in Hpath. simpl in Hpath. rewrite Td in Hpath.
    apply (Hpath _ _ _ eq_refl eq_refl eq_refl).
    simpl. destruct (truthy_str_Some _ Hp) as (ch & s & ->). reflexivity.
  - rewrite <- Hc in Hord. simpl in Hord. rewrite To in Hord.
    apply (Hord _ eq_refl eq_refl).
  - rewrite <- Hc in Hord. simpl in Hord. rewrite To in Hord.
    apply (Hord _ eq_refl eq_refl).
  - rewrite <- Hc in Hord. simpl in Hord. rewrite To in Hord.
    apply (Hord _ eq_refl eq_refl).
Qed.

Lemma serialize_scope_contents_witness :
  exists c,
    new_Context kiosk_order = Ok c /\
    (exists o, serialize c = Ok o) /\
    (forall o, serialize c = Ok o ->
       o !! "scope" =
       Some (obj [("partner",
                   Str (str_of (opt_partner kiosk_order) ++ "/"
                        ++ str_of (opt_location kiosk_order) ++ "/"
                        ++ str_of (opt_device kiosk_order)))])).
Proof.
  eexists. split; [reflexivity|].
  split; [eexists; vm_compute; reflexivity|].
  intros o Ho.
  apply (proj1 (serialize_scope_contents kiosk_order _ o eq_refl Ho));
    reflexivity.
Defined.

(** X4. For a constructed context with no location scope and no order,
    whose collection (if any) has a name, rendering the wire export with
    [serializeProto] gives the same result as [serialize]: the same
    object, or the same [TypeError]. *)
Theorem serializeProto_export_agrees (a : ContextArgs) (c : Context)
    (pc : ProtoContext) :
  new_Context a = Ok c ->
  export c = Ok pc ->
  truthy_str (opt_partner a) && truthy_str (opt_location a) = false ->
  truthy_str (opt_order a) = false ->
  (forall col, opt_collection a = Some col ->
               negb (String.eqb (name col) "") = true) ->
  serializeProto pc = serialize c.
Proof.
  intros Hnew Hexp Hpl Hord Hcol. revert Hnew Hexp.
  unfold new_Context. rewrite Hpl, Hord. simpl. intros [= <-].
  unfold export, export_scope, serialize, serializeProto. simpl.
  unfold or_null.
  destruct (opt_collection a) as [col|] eqn:Ec;
    [specialize (Hcol col eq_refl)|];
    destruct (truthy_str (opt_fingerprint a)) eqn:Ef,
      (truthy_str (opt_session a)) eqn:Es,
      (truthy_str (opt_user a)) eqn:Eu,
      (opt_browser a) as [br|];
    simpl; rewrite ?Ef, ?Es; change (truthy_str None) with false;
    simpl; intros [= <-]; simpl;
    rewrite ?Ef, ?Es, ?Hcol, ?(truthy_str_nonempty _ Eu);
    change (truthy_str None) with false; reflexivity.
Qed.

Lemma serializeProto_export_agrees_witness :
  exists c pc,
    new_Context anonymous_visit = Ok c /\
    export c = Ok pc /\
    (exists o, serialize c = Ok o) /\
    serializeProto pc = serialize c.
Proof.
  eexists _, _. split; [reflexivity|].
  split; [vm_compute; reflexivity|].
  split; [eexists; vm_compute; reflexivity|].
  apply (serializeProto_export_agrees anonymous_visit).
  - reflexivity.
  - vm_compute. reflexivity.
  - reflexivity.
  - reflexivity.
  - intros col [= <-]. reflexivity.
Defined.

End RenderingSpec.

(** ** Browser detection and the global context *)

Module GlobalSpec.
Import Telemetry SerializeParts RenderParts GlobalContext Browser Inputs
  MoreInputs ContextSpec CacheSpec RenderingSpec.

Local Arguments truthy_str : simpl never.

(** X5. Whatever the environment, the detected browser context can be
    serialized (no [TypeError]): its os, app and library parts are set,
    and the object carries the detected browser type, the document origin
    and the library variant. *)
Theorem buildBrowserContext_serializes (E : Enums) (env : Environment) :
  exists sb,
    serializeBrowserContext (buildBrowserContext E env) = Ok sb /\
    get sb "browserType" = Num (bdc_browserType (buildBrowserContext E env)) /\
    get (get sb "app") "origin" = Str (document_origin env) /\
    get (get sb "library") "variant" = Str (bloombox_VARIANT env).
Proof.
  eexists. split; [reflexivity|]. repeat split.
Qed.

Section Global.
Variable generateUUID : nat -> string.
Variable E : Enums.

(** When the context is gathered (none is cached, or a refresh is
    forced), it is built from the configured codes, the resolved
    fingerprint and session id and the detected browser, and cached. *)
Lemma globalContext_gathers (env : Environment) (config : ActiveConfig)
    (force : bool) (g : Globals) :
  GLOBAL_CONTEXT g = None \/ force = true ->
  let fp := resolveFingerprint generateUUID (world g) in
  let sid := resolveSessionID generateUUID (snd fp) in
  exists c,
    new_Context
      {| opt_collection := None;
         opt_partner := or_null (config_partner config);
         opt_location := or_null (config_location config);
         opt_fingerprint := Some (fst fp);
         opt_session := Some (fst sid);
         opt_user := None; opt_device := None; opt_order := None;
         opt_browser := Some (buildBrowserContext E env) |} = Ok c /\
    globalContext generateUUID E env config force g =
    ({| GLOBAL_CONTEXT := Some c; world := snd sid |}, Ok (Some c)).
Proof.
  intros Hfresh fp sid.
  destruct (new_Context_returns
              {| opt_collection := None;
                 opt_partner := or_null (config_partner config);
                 opt_location := or_null (config_location config);
                 opt_fingerprint := Some (fst fp);
                 opt_session := Some (fst sid);
                 opt_user := None; opt_device := None; opt_order := None;
                 opt_browser := Some (buildBrowserContext E env) |})
    as [c Hc].
  exists c. split; [exact Hc|].
  unfold globalContext.
  assert (Hcond : (match GLOBAL_CONTEXT g with None => true | Some _ => false end
                   || (force || false)) = true).
  { destruct Hfresh as [-> | ->]; [reflexivity|].
    destruct (GLOBAL_CONTEXT g); reflexivity. }
  rewrite Hcond.
  fold fp. destruct fp as [f w1] eqn:Efp. simpl in sid, Hc |- *.
  fold sid. destruct sid as [s w2] eqn:Esid. simpl in Hc |- *.
  rewrite Hc. reflexivity.
Qed.

(** X6. [globalContext] always returns a context and leaves it in
    [GLOBAL_CONTEXT]; a later call without a forced refresh returns that
    context and changes nothing, whatever the environment and the
    configuration have become. *)
Theorem globalContext_is_cached (env env' : Environment)
    (config config' : ActiveConfig) (force : bool) (g : Globals) :
  let first := globalContext generateUUID E env config force g in
  (exists c, snd first = Ok (Some c) /\ GLOBAL_CONTEXT (fst first) = Some c) /\
  globalContext generateUUID E env' config' false (fst first) = first.
Proof.
  intros first.
  assert (H : exists c, snd first = Ok (Some c) /\
                        GLOBAL_CONTEXT (fst first) = Some c).
  { destruct (GLOBAL_CONTEXT g) as [c0|] eqn:Hg.
    - destruct force.
      + destruct (globalContext_gathers env config true g (or_intror eq_refl))
          as (c & _ & Hc).
        unfold first. rewrite Hc. eauto.
      + unfold first, globalContext. rewrite Hg. simpl. rewrite Hg. eauto.
    - destruct (globalContext_gathers env config force g (or_introl Hg))
        as (c & _ & Hc).
      unfold first. rewrite Hc. eauto. }
  split; [exact H|].
  destruct H as (c & Hs & Hg1).
  destruct first as [g1 r1]. simpl in *. subst r1.
  unfold globalContext. rewrite Hg1. simpl. rewrite Hg1. reflexivity.
Qed.

(** Once resolved, the session id is returned as it is. *)
Lemma resolveSessionID_caches (w : World) :
  SESSION_ID (snd (resolveSessionID generateUUID w)) =
  Some (fst (resolveSessionID generateUUID w)).
Proof.
  unfold resolveSessionID.
  destruct (SESSION_ID w) as [sid|] eqn:Hs; simpl; [exact Hs|].
  destruct (truthy_str (sessionStorage w !! SESSION_ID_KEY)); reflexivity.
Qed.

(** The session resolver leaves the cached fingerprint alone. *)
Lemma resolveSessionID_keeps_fingerprint (w : World) :
  DEVICE_FINGERPRINT (snd (resolveSessionID generateUUID w)) =
  DEVICE_FINGERPRINT w.
Proof.
  unfold resolveSessionID.
  destruct (SESSION_ID w); [reflexivity|].
  destruct (truthy_str (sessionStorage w !! SESSION_ID_KEY)); reflexivity.
Qed.

(** The same for the fingerprint resolver and the session id. *)
Lemma resolveFingerprint_keeps_session (w : World) :
  SESSION_ID (snd (resolveFingerprint generateUUID w)) = SESSION_ID w.
Proof.
  unfold resolveFingerprint.
  destruct (DEVICE_FINGERPRINT w); [reflexivity|].
  destruct (truthy_str (localStorage w !! DEVICE_FINGERPRINT_KEY));
    reflexivity.
Qed.

(** X7. A forced refresh after a forced refresh rebuilds the context with
    the same fingerprint and the same session id, and draws no new
    identifier, whatever the environment and the configuration have
    become. *)
Theorem globalContext_refresh_keeps_identity (env env' : Environment)
    (config config' : ActiveConfig) (g : Globals) :
  let first := globalContext generateUUID E env config true g in
  let second := globalContext generateUUID E env' config' true (fst first) in
  exists c1 c2,
    snd first = Ok (Some c1) /\ snd second = Ok (Some c2) /\
    fingerprint c2 = fingerprint c1 /\
    session c2 = session c1 /\
    world (fst second) = world (fst first).
Proof.
  intros first second.
  destruct (globalContext_gathers env config true g (or_intror eq_refl))
    as (c1 & Hc1 & H1).
  fold first in H1.
  destruct (globalContext_gathers env' config' true (fst first)
              (or_intror eq_refl)) as (c2 & Hc2 & H2).
  fold second in H2.
  exists c1, c2. rewrite H2, H1. cbn [fst snd world].
  rewrite H1 in Hc2. cbn [fst snd world] in Hc2.
  set (r1 := resolveFingerprint generateUUID (world g)) in *.
  set (r2 := resolveSessionID generateUUID (snd r1)) in *.
  assert (Hfp : DEVICE_FINGERPRINT (snd r2) = Some (fst r1)).
  { unfold r2. rewrite resolveSessionID_keeps_fingerprint.
    apply resolveFingerprint_caches. }
  assert (Hsid : SESSION_ID (snd r2) = Some (fst r2))
    by apply resolveSessionID_caches.
  rewrite (resolveFingerprint_cached generateUUID _ _ Hfp) in Hc2 |- *.
  cbn [fst snd] in Hc2 |- *.
  assert (Hr : resolveSessionID generateUUID (snd r2) = (fst r2, snd r2)).
  { unfold resolveSessionID at 1. rewrite Hsid. reflexivity. }
  rewrite Hr in Hc2 |- *. cbn [fst snd] in Hc2 |- *.
  destruct (new_Context_fields _ _ Hc1) as (_ & F1 & S1 & _).
  destruct (new_Context_fields _ _ Hc2) as (_ & F2 & S2 & _).
  cbn [opt_fingerprint opt_session] in F1, S1, F2, S2.
  repeat split; congruence.
Qed.

(** X8. The first global context of a process can always be exported,
    with the detected browser context in the message.  Its plain-object
    form exists only when partner and location are not both configured
    (it then has the browser object and no scope); with both configured,
    [serialize] throws a [TypeError]. *)
Theorem globalContext_serialization (env : Environment)
    (config : ActiveConfig) (force : bool) (g : Globals) :
  GLOBAL_CONTEXT g = None ->
  exists c pc,
    snd (globalContext generateUUID E env config force g) = Ok (Some c) /\
    export c = Ok pc /\
    pc_browser pc = Some (buildBrowserContext E env) /\
    (truthy_str (config_partner config)
       && truthy_str (config_location config) = true ->
     serialize c = Throw TypeError) /\
    (truthy_str (config_partner config)
       && truthy_str (config_location config) = false ->
     exists o sb,
       serialize c = Ok o /\
       o !! "scope" = None /\
       serializeBrowserContext (buildBrowserContext E env) = Ok sb /\
       o !! "browser" = Some sb).
Proof.
  intros Hg.
  destruct (globalContext_gathers env config force g (or_introl Hg))
    as (c & Hc & H).
  destruct (export_of_constructed _ c Hc) as (pc & Hpc & Hbr).
  exists c, pc. rewrite H. cbn [snd].
  split; [reflexivity|]. split; [exact Hpc|]. split; [exact Hbr|].
  clear H Hpc Hbr. revert Hc. unfold new_Context.
  cbn [opt_partner opt_location opt_device opt_user opt_order opt_browser
       opt_collection opt_fingerprint opt_session].
  rewrite !truthy_str_or_null.
  change (truthy_str None) with false.
  destruct (truthy_str (config_partner config)),
    (truthy_str (config_location config));
    cbn [andb Js.bind]; intros [= <-]; (split; intros [=]).
  - reflexivity.
  - unfold serialize. simpl.
    change (truthy_str None) with false. simpl.
    eexists _, _. split; [reflexivity|].
    split.
    { rewrite lookup_insert_ne by discriminate.
      repeat match goal with
             | |- context [if ?b then _ else _] => destruct b
             end; reflexivity. }
    split; [reflexivity|]. apply lookup_insert_eq.
  - unfold serialize. simpl.
    change (truthy_str None) with false. simpl.
    eexists _, _. split; [reflexivity|].
    split.
    { rewrite lookup_insert_ne by discriminate.
      repeat match goal with
             | |- context [if ?b then _ else _] => destruct b
             end; reflexivity. }
    split; [reflexivity|]. apply lookup_insert_eq.
  - unfold serialize. simpl.
    change (truthy_str None) with false. simpl.
    eexists _, _. split; [reflexivity|].
    split.
    { rewrite lookup_insert_ne by discriminate.
      repeat match goal with
             | |- context [if ?b then _ else _] => destruct b
             end; reflexivity. }
    split; [reflexivity|]. apply lookup_insert_eq.
Qed.

End Global.

Lemma globalContext_serialization_witness :
  exists c,
    snd (globalContext counting_uuid enum_numbers chrome_on_linux
           shop_config false fresh_globals) = Ok (Some c) /\
    serialize c = Throw TypeError.
Proof.
  destruct (globalContext_serialization counting_uuid enum_numbers
              chrome_on_linux shop_config false fresh_globals eq_refl)
    as (c & pc & Hc & _ & _ & Hthrow & _).
  exists c. split; [exact Hc | apply Hthrow; reflexivity].
Defined.

End GlobalSpec.

(** ** Fingerprint and session across page loads *)

Module CacheMoreSpec.
Import GlobalContext CacheParts Inputs CacheSpec.

Local Arguments truthy_str : simpl never.

(** A string other than the empty one is truthy. *)
Lemma truthy_str_ne (s : string) : s <> "" -> truthy_str (Some s) = true.
Proof. destruct s; [congruence | reflexivity]. Qed.

Section Resolver.
Variable generateUUID : nat -> string.

(** A first call in a process leaves the returned string in local storage. *)
Lemma resolveFingerprint_stores (w : World) :
  DEVICE_FINGERPRINT w = None ->
  fst (resolveFingerprint generateUUID w) <> "" ->
  localStorage (snd (resolveFingerprint generateUUID w))
    !! DEVICE_FINGERPRINT_KEY = Some (fst (resolveFingerprint generateUUID w)).
Proof.
  intros Hv. unfold resolveFingerprint. rewrite Hv.
  destruct (localStorage w !! DEVICE_FINGERPRINT_KEY) as [s|] eqn:Hs.
  - destruct (truthy_str (Some s)) eqn:Ht; simpl; intros _.
    + exact Hs.
    + apply lookup_insert_eq.
  - change (truthy_str None) with false. simpl. intros _.
    apply lookup_insert_eq.
Qed.

(** A call that finds a usable string in local storage returns it and
    draws nothing. *)
Lemma resolveFingerprint_reads (w : World) (s : string) :
  DEVICE_FINGERPRINT w = None ->
  localStorage w !! DEVICE_FINGERPRINT_KEY = Some s ->
  s <> "" ->
  fst (resolveFingerprint generateUUID w) = s /\
  drawn (snd (resolveFingerprint generateUUID w)) = drawn w /\
  localStorage (snd (resolveFingerprint generateUUID w)) = localStorage w /\
  SESSION_ID (snd (resolveFingerprint generateUUID w)) = SESSION_ID w /\
  sessionStorage (snd (resolveFingerprint generateUUID w)) = sessionStorage w.
Proof.
  intros Hv Hs Hne. unfold resolveFingerprint.
  rewrite Hv, Hs, (truthy_str_ne s Hne). simpl. auto.
Qed.

(** The session resolver reads and writes the session side only. *)
Lemma resolveSessionID_frame (w : World) :
  localStorage (snd (resolveSessionID generateUUID w)) = localStorage w /\
  DEVICE_FINGERPRINT (snd (resolveSessionID generateUUID w)) =
  DEVICE_FINGERPRINT w.
Proof.
  unfold resolveSessionID.
  destruct (SESSION_ID w); [auto|].
  destruct (truthy_str (sessionStorage w !! SESSION_ID_KEY)); auto.
Qed.

End Resolver.

(** X9. A fingerprint resolved by the first call of a process, if it is
    not the empty string, is what the first call of the next process
    returns (the local storage persists), whatever generator that process
    has. *)
Theorem fingerprint_survives_restart (generateUUID generateUUID' : nat -> string)
    (w : World) :
  DEVICE_FINGERPRINT w = None ->
  fst (resolveFingerprint generateUUID w) <> "" ->
  fst (resolveFingerprint generateUUID'
         (restart (snd (resolveFingerprint generateUUID w))))
  = fst (resolveFingerprint generateUUID w).
Proof.
  intros Hv Hne.
  pose proof (resolveFingerprint_stores generateUUID w Hv Hne) as Hst.
  apply (resolveFingerprint_reads generateUUID'
           (restart (snd (resolveFingerprint generateUUID w)))); auto.
Qed.

Lemma fingerprint_survives_restart_witness :
  fst (resolveFingerprint counting_uuid
         (restart (snd (resolveFingerprint counting_uuid fresh_world))))
  = fst (resolveFingerprint counting_uuid fresh_world).
Proof.
  apply (fingerprint_survives_restart counting_uuid counting_uuid
           fresh_world); [reflexivity | vm_compute; discriminate].
Defined.

(** X10. Within one process two calls of [resolveSessionID] return the
    same string whatever happens to the session storage between them, and
    resolving the session id touches neither the local storage nor the
    cached fingerprint. *)
Theorem resolveSessionID_stable_within_process
    (generateUUID : nat -> string) (w : World)
    (f : gmap string string -> gmap string string) :
  let first := resolveSessionID generateUUID w in
  fst (resolveSessionID generateUUID (sessionStorage_update f (snd first)))
  = fst first /\
  localStorage (snd first) = localStorage w /\
  DEVICE_FINGERPRINT (snd first) = DEVICE_FINGERPRINT w.
Proof.
  intros first. unfold first, resolveSessionID.
  destruct (SESSION_ID w) as [sid|] eqn:Hs; simpl.
  - rewrite Hs. auto.
  - destruct (truthy_str (sessionStorage w !! SESSION_ID_KEY)); simpl; auto.
Qed.

(** X11. After fingerprint and session id were resolved in a fresh
    process, a page load in a new browser session (session storage empty,
    local storage kept) resolves the same fingerprint, provided it is not
    empty, and a newly drawn session id, which it stores. *)
Theorem new_session_keeps_fingerprint (generateUUID : nat -> string)
    (w : World) :
  DEVICE_FINGERPRINT w = None ->
  fst (resolveFingerprint generateUUID w) <> "" ->
  let fp1 := resolveFingerprint generateUUID w in
  let sid1 := resolveSessionID generateUUID (snd fp1) in
  let fp2 := resolveFingerprint generateUUID (new_session (snd sid1)) in
  let sid2 := resolveSessionID generateUUID (snd fp2) in
  fst fp2 = fst fp1 /\
  fst sid2 = generateUUID (drawn (snd sid1)) /\
  sessionStorage (snd sid2) !! SESSION_ID_KEY = Some (fst sid2).
Proof.
  intros Hv Hne fp1 sid1 fp2 sid2.
  pose proof (resolveFingerprint_stores generateUUID w Hv Hne) as Hst.
  fold fp1 in Hst, Hne.
  assert (Hkeep : localStorage (snd sid1) = localStorage (snd fp1)).
  { apply (resolveSessionID_frame generateUUID (snd fp1)). }
  destruct (resolveFingerprint_reads generateUUID (new_session (snd sid1))
              (fst fp1)) as (H1 & H2 & _ & H4 & H5);
    [reflexivity | simpl; rewrite Hkeep; exact Hst | exact Hne |].
  fold fp2 in H1, H2, H4, H5.
  split; [exact H1|].
  unfold sid2, resolveSessionID. rewrite H4, H5. simpl.
  rewrite lookup_empty. change (truthy_str None) with false. simpl.
  rewrite H2. split; [reflexivity | apply lookup_insert_eq].
Qed.

Lemma new_session_keeps_fingerprint_witness :
  let fp1 := resolveFingerprint counting_uuid fresh_world in
  let sid1 := resolveSessionID counting_uuid (snd fp1) in
  let fp2 := resolveFingerprint counting_uuid (new_session (snd sid1)) in
  let sid2 := resolveSessionID counting_uuid (snd fp2) in
  fst fp2 = fst fp1 /\
  fst sid2 = counting_uuid (drawn (snd sid1)) /\
  sessionStorage (snd sid2) !! SESSION_ID_KEY = Some (fst sid2).
Proof.
  apply (new_session_keeps_fingerprint counting_uuid fresh_world);
    [reflexivity | vm_compute; discriminate].
Defined.

End CacheMoreSpec.

(** ** Identity documents *)

Module IdentitySpec.
Import Enroll Identity IdentityParts MoreInputs.

Section Constructors.
Variable toUpperCase : string -> string.

(** X12. The [ID] constructor accepts any four non-empty strings: the id
    and the two dates are stored as given (a date is not checked to be a
    date), the jurisdiction is stored upper-cased, and the country is the
    one given, or [USA] when it is left out or empty. *)
Theorem new_ID_accepts (type : Z) (id expirationDate birthDate jurisdiction : string)
    (country : option string) :
  id <> "" -> expirationDate <> "" -> birthDate <> "" -> jurisdiction <> "" ->
  new_ID toUpperCase type (Str id) (Str expirationDate) (Str birthDate)
    (Str jurisdiction) country =
  Ok {| id_type := type;
        id_id := id;
        id_expirationDate := {| iso8601 := Str expirationDate |};
        id_birthDate := {| iso8601 := Str birthDate |};
        id_jurisdiction := toUpperCase jurisdiction;
        id_country :=
          match country with
          | Some c => if String.eqb c "" then "USA" else c
          | None => "USA"
          end |}.
Proof.
  intros Hi He Hb Hj. unfold new_ID.
  destruct id; [congruence|]. destruct expirationDate; [congruence|].
  destruct birthDate; [congruence|]. destruct jurisdiction; [congruence|].
  simpl. destruct country as [[|c s]|]; reflexivity.
Qed.

(** X13. The [ID] constructor throws an [IDException] exactly when one of
    id, expiration date, birth date and jurisdiction is not a non-empty
    string; type and country are never a reason. *)
Theorem new_ID_rejects_exactly (type : Z)
    (id expirationDate birthDate jurisdiction : value)
    (country : option string) :
  (exists e, new_ID toUpperCase type id expirationDate birthDate
               jurisdiction country = Throw e) <->
  nonempty_string id && nonempty_string expirationDate
    && nonempty_string birthDate && nonempty_string jurisdiction = false.
Proof.
  unfold new_ID, nonempty_string.
  destruct (truthy id), (String.eqb (typeof id) "string"); simpl;
    try (split; [reflexivity | eauto]).
  destruct (truthy expirationDate),
    (String.eqb (typeof expirationDate) "string"); simpl;
    try (split; [reflexivity | eauto]).
  destruct (truthy birthDate), (String.eqb (typeof birthDate) "string");
    simpl; try (split; [reflexivity | eauto]).
  destruct (truthy jurisdiction),
    (String.eqb (typeof jurisdiction) "string");
    simpl; try (split; [reflexivity | eauto]).
  split; [intros [e [=]] | discriminate].
Qed.

End Constructors.

Lemma new_ID_accepts_witness :
  new_ID upper_letters 0 (Str "D1234567") (Str "2030-06-01")
    (Str "next spring") (Str "ca") None =
  Ok {| id_type := 0;
        id_id := "D1234567";
        id_expirationDate := {| iso8601 := Str "2030-06-01" |};
        id_birthDate := {| iso8601 := Str "next spring" |};
        id_jurisdiction := upper_letters "ca";
        id_country := "USA" |}.
Proof.
  apply (new_ID_accepts upper_letters 0 "D1234567" "2030-06-01"
           "next spring" "ca" None); discriminate.
Defined.

End IdentitySpec.

(** ** The enrollment request *)

Module EnrollSpec.
Import Shop Enroll Identity SenderParts Inputs MoreInputs.

(** With a doctor website the request cannot be assembled. *)
Lemma rawObject_of_website (this : Enrollment) (partner location : value) :
  is_null (doctorWebsite (doctorRec this)) = false ->
  rawObject_of this partner location = Throw TypeError.
Proof.
  intros H. unfold rawObject_of. rewrite H.
  destruct (is_null (password this)); vm_compute; reflexivity.
Qed.

(** Without one it is sent as a [POST] to [members], with the
    configured codes, the password when there is one and the dry-run mark
    when it is set. *)
Lemma send_assembles (config : Config) (this : Enrollment) :
  config_missing config = false ->
  doctorWebsite (doctorRec this) = Null ->
  exists body,
    send config this =
    ([Logged INFO "Enrolling user...";
      Sent {| rpc_routine := ENROLL_USER;
              rpc_method := "POST";
              rpc_endpoint := "members";
              rpc_payload := Some (Obj body) |}],
     Ok tt) /\
    body !! "partnerCode" = Some (cfg_partner config) /\
    body !! "locationCode" = Some (cfg_location config) /\
    body !! "password" =
      (if is_null (password this) then None else Some (password this)) /\
    body !! "dryRun" = (if dryRun this then Some (Bool true) else None) /\
    get (get (Obj body) "license") "jurisdiction" =
      Str (id_jurisdiction (license this)).
Proof.
  intros Hc Hw. unfold config_missing in Hc. unfold send. rewrite Hc.
  unfold rawObject_of. rewrite Hw.
  destruct (is_null (password this)), (dryRun this);
    cbn [negb is_null Js.bind Js.set obj];
    eexists; (split; [reflexivity|]);
    repeat split; vm_compute; reflexivity.
Qed.

(** X14. With partner and location configured, an enrollment whose
    recommendation has a doctor website (any value other than [null])
    makes [send] throw a [TypeError] while the request is assembled: no
    RPC is issued and nothing is logged. *)
Theorem send_throws_on_doctor_website (config : Config) (this : Enrollment) :
  config_missing config = false ->
  is_null (doctorWebsite (doctorRec this)) = false ->
  send config this = ([], Throw TypeError).
Proof.
  intros Hc Hw. unfold config_missing in Hc. unfold send.
  rewrite Hc, (rawObject_of_website this _ _ Hw). reflexivity.
Qed.

Lemma send_throws_on_doctor_website_witness :
  send configured enrollment_with_website = ([], Throw TypeError).
Proof.
  apply (send_throws_on_doctor_website configured enrollment_with_website);
    reflexivity.
Defined.

(** X15. With partner and location configured and no doctor website,
    [send] logs once and issues exactly one RPC, a [POST] to [members];
    its body carries the configured partner and location codes, the
    license jurisdiction, the password exactly when the enrollment has
    one, and [dryRun] exactly when dry-run mode is on. *)
Theorem send_request_body (config : Config) (this : Enrollment) :
  config_missing config = false ->
  doctorWebsite (doctorRec this) = Null ->
  exists body,
    send config this =
    ([Logged INFO "Enrolling user...";
      Sent {| rpc_routine := ENROLL_USER;
              rpc_method := "POST";
              rpc_endpoint := "members";
              rpc_payload := Some (Obj body) |}],
     Ok tt) /\
    body !! "partnerCode" = Some (cfg_partner config) /\
    body !! "locationCode" = Some (cfg_location config) /\
    body !! "password" =
      (if is_null (password this) then None else Some (password this)) /\
    body !! "dryRun" = (if dryRun this then Some (Bool true) else None) /\
    get (get (Obj body) "license") "jurisdiction" =
      Str (id_jurisdiction (license this)).
Proof. exact (send_assembles config this). Qed.

Lemma send_request_body_witness :
  exists body,
    requests (fst (send configured (enableDryRun enrollment))) =
    [{| rpc_routine := ENROLL_USER;
        rpc_method := "POST";
        rpc_endpoint := "members";
        rpc_payload := Some (Obj body) |}] /\
    body !! "partnerCode" = Some (Str "mm") /\
    body !! "dryRun" = Some (Bool true) /\
    body !! "password" = None.
Proof.
  destruct (send_request_body configured (enableDryRun enrollment)
              eq_refl eq_refl) as (body & Hs & Hp & _ & Hpw & Hd & _).
  exists body. rewrite Hs. repeat split; assumption.
Defined.

Section Constructors.
Variable btoa : string -> string.


End Constructors.


End EnrollSpec.

(** ** Responses, repeated deliveries and requests of the senders *)

Module SenderMoreSpec.
Import Shop Enroll SenderParts Delivery Inputs SenderSpec.

(** *** Response mapping *)

(** X17. The zipcode sender calls back with [true] exactly for a response
    object whose [supported] is the boolean [true], with [false] for any
    other response object, and with [null] for a response that is not an
    object and for a transport failure. *)
Theorem zipcheck_response_mapping (props : gmap string value)
    (response status : value) :
  (props !! "supported" = Some (Bool true) ->
   calls (snd (zipcheck_success false (Obj props))) =
   [{| zc_supported := Some true |}]) /\
  (props !! "supported" <> Some (Bool true) ->
   calls (snd (zipcheck_success false (Obj props))) =
   [{| zc_supported := Some false |}]) /\
  (is_nullish response = false -> typeof response <> "object" ->
   calls (snd (zipcheck_success false response)) =
   [{| zc_supported := None |}]) /\
  calls (snd (zipcheck_failure false status)) = [{| zc_supported := None |}].
Proof.
  repeat split.
  - intros H. unfold zipcheck_success. simpl. rewrite H. reflexivity.
  - intros H. unfold zipcheck_success. simpl.
    destruct (props !! "supported") as [[| |[|]|n| |s|m]|]; simpl;
      try reflexivity. congruence.
  - intros Hn Ht. unfold zipcheck_success. rewrite Hn. simpl.
    destruct response; simpl in *; try reflexivity; congruence.
Qed.

(** X18. The shop-info sender reports the shop fully open for every
    response object whose status is none of [CLOSED], [DELIVERY_ONLY] and
    [PICKUP_ONLY] (so also for [OPEN], an unknown word, or a value that is
    not a string); it calls back with three [null]s for a response that
    is not an object, and on a transport failure with the status as third
    argument when that is truthy and [null] otherwise. *)
Theorem info_default_mapping (props : gmap string value)
    (response status : value) :
  (is_str (default Undefined (props !! "shopStatus")) "CLOSED" = false ->
   is_str (default Undefined (props !! "shopStatus")) "DELIVERY_ONLY" = false ->
   is_str (default Undefined (props !! "shopStatus")) "PICKUP_ONLY" = false ->
   calls (snd (info_success false (Obj props))) =
   [{| si_pickup := Some true; si_delivery := Some true;
       si_status := Null |}]) /\
  (is_nullish response = false -> typeof response <> "object" ->
   calls (snd (info_success false response)) =
   [{| si_pickup := None; si_delivery := None; si_status := Null |}]) /\
  (truthy status = true ->
   calls (snd (info_failure false status)) =
   [{| si_pickup := None; si_delivery := None; si_status := status |}]) /\
  (truthy status = false ->
   calls (snd (info_failure false status)) =
   [{| si_pickup := None; si_delivery := None; si_status := Null |}]).
Proof.
  repeat split.
  - intros Hc Hd Hp. unfold info_success. simpl.
    unfold Js.or.
    destruct (truthy (default Undefined (props !! "shopStatus"))) eqn:Ht.
    + unfold ShopStatus.CLOSED, ShopStatus.DELIVERY_ONLY,
        ShopStatus.PICKUP_ONLY. rewrite Hc, Hd, Hp. reflexivity.
    + reflexivity.
  - intros Hn Ht. unfold info_success. rewrite Hn. simpl.
    destruct response; simpl in *; try reflexivity; congruence.
  - intros H. unfold info_failure, Js.or. simpl. rewrite H. reflexivity.
  - intros H. unfold info_failure, Js.or. simpl. rewrite H. reflexivity.
Qed.

(** *** The guard *)

(** Once the guard is set, further responses are dropped. *)
Lemma deliver_all_done {Cb : Type}
    (step : bool -> delivery -> bool * list (effect Cb))
    (rs : list value) :
  (forall r, step true (Succeeded r) = (true, [])) ->
  deliver_all step true (map Succeeded rs) = (true, []).
Proof.
  intros Hstep. induction rs as [|r rs IH]; simpl; [reflexivity|].
  rewrite Hstep, IH. reflexivity.
Qed.

(** A first response that sets the guard decides the whole run. *)
Lemma deliver_all_first {Cb : Type}
    (step : bool -> delivery -> bool * list (effect Cb))
    (r : value) (rs : list value) :
  (forall r, step true (Succeeded r) = (true, [])) ->
  fst (step false (Succeeded r)) = true ->
  deliver_all step false (map Succeeded (r :: rs)) =
  step false (Succeeded r).
Proof.
  intros Hstep Hdone. simpl.
  destruct (step false (Succeeded r)) as [d effects]. simpl in Hdone.
  subst d. rewrite (deliver_all_done step rs Hstep).
  rewrite app_nil_r. reflexivity.
Qed.

(** X19. When the transport calls the success continuation several
    times and the first response is not [null] or [undefined], each of the
    three senders calls back exactly once, for that first response; all
    later responses are dropped without any effect. *)
Theorem first_response_wins (personObj : Person) (r : value)
    (rs : list value) :
  is_nullish r = false ->
  (deliver_all info_deliver false (map Succeeded (r :: rs)) =
   info_success false r /\
   exists call, calls (snd (info_success false r)) = [call]) /\
  (deliver_all zipcheck_deliver false (map Succeeded (r :: rs)) =
   zipcheck_success false r /\
   exists call, calls (snd (zipcheck_success false r)) = [call]) /\
  (deliver_all (send_deliver personObj) false (map Succeeded (r :: rs)) =
   send_success personObj false r /\
   exists call, calls (snd (send_success personObj false r)) = [call]).
Proof.
  intros Hr. repeat split.
  - apply (deliver_all_first info_deliver); [reflexivity|].
    simpl. unfold info_success. rewrite Hr. reflexivity.
  - apply (info_calls_back_once (Succeeded r));
      intros [= ->]; discriminate.
  - apply (deliver_all_first zipcheck_deliver); [reflexivity|].
    simpl. unfold zipcheck_success. rewrite Hr. reflexivity.
  - apply (zipcheck_calls_back_once (Succeeded r));
      intros [= ->]; discriminate.
  - apply (deliver_all_first (send_deliver personObj)); [reflexivity|].
    simpl. unfold send_success. rewrite Hr. reflexivity.
  - apply (enroll_calls_back_once personObj (Succeeded r)).
Qed.

Lemma first_response_wins_witness :
  deliver_all zipcheck_deliver false
    (map Succeeded [obj [("supported", Bool true)]; Null; obj []]) =
  zipcheck_success false (obj [("supported", Bool true)]).
Proof.
  destruct (first_response_wins jane (obj [("supported", Bool true)])
              [Null; obj []] eq_refl) as (_ & (H & _) & _).
  exact H.
Defined.

Local Arguments calls : simpl never.

(** X20. The guard covers the success continuation only: after a response
    that was answered, a failure reported by the transport makes each of
    the three senders call back a second time; and the enrollment sender
    calls back once for every [null] response, however many arrive. *)
Theorem guard_gaps (personObj : Person) (r status : value) (n : nat) :
  is_nullish r = false ->
  length (calls (snd (deliver_all info_deliver false
                        [Succeeded r; Failed status]))) = 2 /\
  length (calls (snd (deliver_all zipcheck_deliver false
                        [Succeeded r; Failed status]))) = 2 /\
  length (calls (snd (deliver_all (send_deliver personObj) false
                        [Succeeded r; Failed status]))) = 2 /\
  length (calls (snd (deliver_all (send_deliver personObj) false
                        (map Succeeded (replicate n Null))))) = n.
Proof.
  intros Hr.
  assert (Hcalls : forall (Cb : Type) (a b : list (effect Cb)),
             calls (app a b) = app (calls a) (calls b)).
  { intros Cb a b. unfold calls. apply omap_app. }
  repeat split.
  - destruct (info_calls_back_once (Succeeded r)) as [c Hc];
      try (intros [= ->]; discriminate).
    cbn [info_deliver] in Hc. cbn [deliver_all info_deliver info_failure].
    destruct (info_success false r) as [d e]. cbn [snd] in Hc |- *.
    rewrite Hcalls, Hc. reflexivity.
  - destruct (zipcheck_calls_back_once (Succeeded r)) as [c Hc];
      try (intros [= ->]; discriminate).
    cbn [zipcheck_deliver] in Hc. cbn [deliver_all zipcheck_deliver zipcheck_failure].
    destruct (zipcheck_success false r) as [d e]. cbn [snd] in Hc |- *.
    rewrite Hcalls, Hc. reflexivity.
  - destruct (enroll_calls_back_once personObj (Succeeded r)) as [c Hc].
    cbn [send_deliver] in Hc. cbn [deliver_all send_deliver send_failure].
    destruct (send_success personObj false r) as [d e].
    cbn [snd] in Hc |- *.
    rewrite Hcalls, Hc. reflexivity.
  - induction n as [|n IH]; simpl; [reflexivity|].
    simpl in IH.
    destruct (deliver_all (send_deliver personObj) false
                (map Succeeded (replicate n Null))) as [d e].
    simpl in *. rewrite IH. reflexivity.
Qed.

Lemma guard_gaps_witness :
  length (calls (snd (deliver_all info_deliver false
                        [Succeeded (obj []); Failed (Num 503)]))) = 2 /\
  length (calls (snd (deliver_all (send_deliver jane) false
                        (map Succeeded (replicate 3 Null))))) = 3.
Proof.
  destruct (guard_gaps jane (obj []) (Num 503) 3 eq_refl)
    as (H1 & _ & _ & H4).
  split; [exact H1 | exact H4].
Defined.

(** *** Requests *)

(** A code of two characters or more passes both tests of the shop
    senders. *)
Lemma long_code (s : string) :
  1 < String.length s ->
  truthy (Str s) = true /\ Nat.ltb 1 (String.length s) = true.
Proof.
  intros H. split.
  - destruct s; [simpl in H; lia | reflexivity].
  - apply Nat.ltb_lt. exact H.
Qed.

(** X21. With a partner and a location code of at least two characters,
    [info] logs once and issues exactly one RPC: a [GET] without body at
    [partners/<partner>/locations/<location>/shop/info]. *)
Theorem info_issues_one_request (p l : string) :
  1 < String.length p -> 1 < String.length l ->
  info {| cfg_partner := Str p; cfg_location := Str l |} =
  ([Logged INFO ("Retrieving shop info for '" ++ p ++ ":" ++ l ++ "'...");
    Sent {| rpc_routine := SHOP_INFO;
            rpc_method := "GET";
            rpc_endpoint :=
              "partners/" ++ p ++ "/locations/" ++ l ++ "/shop/info";
            rpc_payload := None |}],
   Ok tt).
Proof.
  intros Hp Hl. destruct (long_code p Hp) as [Tp Lp].
  destruct (long_code l Hl) as [_ Ll].
  unfold info. cbn [cfg_partner cfg_location typeof toString strlen].
  rewrite Tp, Lp, Ll. reflexivity.
Qed.

Lemma info_issues_one_request_witness :
  info configured =
  ([Logged INFO "Retrieving shop info for 'mm:sacramento'...";
    Sent {| rpc_routine := SHOP_INFO;
            rpc_method := "GET";
            rpc_endpoint := "partners/mm/locations/sacramento/shop/info";
            rpc_payload := None |}],
   Ok tt).
Proof.
  apply (info_issues_one_request "mm" "sacramento"); simpl; lia.
Defined.

(** X22. With such codes and a five-character zipcode that [parseInt]
    reads a number from, [zipcheck] logs once and issues exactly one RPC:
    a [GET] without body at
    [partners/<partner>/locations/<location>/zipcheck/<zipcode>]. *)
Theorem zipcheck_issues_one_request (p l z : string) :
  1 < String.length p -> 1 < String.length l ->
  String.length z = 5 -> parseInt_isNaN z = false ->
  zipcheck {| cfg_partner := Str p; cfg_location := Str l |} (Str z) =
  ([Logged INFO ("Verifying zipcode '" ++ z
                 ++ "' for delivery eligibility...");
    Sent {| rpc_routine := CHECK_ZIP;
            rpc_method := "GET";
            rpc_endpoint :=
              "partners/" ++ p ++ "/locations/" ++ l ++ "/zipcheck/" ++ z;
            rpc_payload := None |}],
   Ok tt).
Proof.
  intros Hp Hl Hz Hn. destruct (long_code p Hp) as [Tp Lp].
  destruct (long_code l Hl) as [_ Ll].
  assert (Tz : truthy (Str z) = true).
  { destruct z; [discriminate | reflexivity]. }
  unfold zipcheck. cbn [cfg_partner cfg_location typeof toString strlen].
  rewrite Tz, Tp, Lp, Ll, Hz, Hn. reflexivity.
Qed.

Lemma zipcheck_issues_one_request_witness :
  zipcheck configured (Str "95814") =
  ([Logged INFO "Verifying zipcode '95814' for delivery eligibility...";
    Sent {| rpc_routine := CHECK_ZIP;
            rpc_method := "GET";
            rpc_endpoint := "partners/mm/locations/sacramento/zipcheck/95814";
            rpc_payload := None |}],
   Ok tt).
Proof.
  apply (zipcheck_issues_one_request "mm" "sacramento" "95814");
    try reflexivity; simpl; lia.
Defined.

(** X23. The zipcode test reads the first character only: with an
    accepted configuration, any five-character string that starts with a
    digit passes the test and is sent, whatever the other four characters
    are. *)
Theorem zipcheck_reads_leading_digit (config : Config) (c : ascii)
    (rest : string) :
  is_digit c = true -> String.length rest = 4 ->
  config_rejected config = false ->
  exists rpc,
    requests (fst (zipcheck config (Str (String c rest)))) = [rpc] /\
    snd (zipcheck config (Str (String c rest))) = Ok tt.
Proof.
  intros Hd Hr Hc. unfold config_rejected in Hc. unfold zipcheck.
  assert (Hn : parseInt_isNaN (String c rest) = false).
  { unfold parseInt_isNaN. simpl.
    assert (Hs : is_space c = false).
    { unfold is_digit, is_space in *.
      destruct (Nat.leb_spec 48 (nat_of_ascii c)); [|discriminate].
      destruct (Nat.leb_spec (nat_of_ascii c) 57); [|discriminate].
      destruct (Nat.leb_spec (nat_of_ascii c) 13); [lia|].
      rewrite andb_false_r. simpl.
      destruct (Nat.eqb_spec (nat_of_ascii c) 32); [lia|].
      destruct (Nat.eqb_spec (nat_of_ascii c) 160); [lia|]. reflexivity. }
    rewrite Hs.
    assert (Hsign : Ascii.eqb c "+" || Ascii.eqb c "-" = false).
    { destruct (Ascii.eqb_spec c "+"%char) as [->|]; [discriminate|].
      destruct (Ascii.eqb_spec c "-"%char) as [->|]; [discriminate|].
      reflexivity. }
    rewrite Hsign, Hd. reflexivity. }
  cbn [truthy typeof strlen toString].
  change (String.length (String c rest)) with (S (String.length rest)).
  rewrite Hr, Hn, Hc. simpl. eauto.
Qed.

Lemma zipcheck_reads_leading_digit_witness :
  exists rpc,
    requests (fst (zipcheck configured (Str "9 x-!"))) = [rpc] /\
    snd (zipcheck configured (Str "9 x-!")) = Ok tt.
Proof.
  apply (zipcheck_reads_leading_digit configured "9"%char " x-!");
    reflexivity.
Defined.


End SenderMoreSpec.
